(** * GCMtools: the dataset registry, the passport checks and the reductions

    A shallow embedding of
    - [GCMtools/utils/passport.py]      ([is_the_data_basic], [is_the_data_cloudy]),
    - [GCMtools/GCMtools.py]            (the [GCMT] session and its registry access),
    - [GCMtools/utils/manipulations.py] (the two reductions),
    followed by the properties of these functions.

    Python objects that are mutated in place (the datasets) live in a store
    and are passed around by reference.  The entries of arrays are read as
    exact real numbers: the embedding describes the code where float64
    arithmetic neither rounds nor overflows and no division is by zero.  A
    second, binary64 reading of the horizontal average shows where the two
    part. *)

From Stdlib Require Import Ascii Reals Lra PrimFloat.
From stdpp Require Import gmap strings list fin_maps functions.

Open Scope string_scope.

(** ** Python values and exceptions *)

(** The values that occur as tags and as dataset attributes.  The last one
    stands for any value that cannot be hashed (a list, a dict). *)
Inductive pyval : Type :=
| VNone
| VStr (s : string)
| VNum (x : R)
| VUnhashable.

(** [isinstance(v, str)] *)
Definition is_str (v : pyval) : bool :=
  match v with VStr _ => true | _ => false end.

(** [v == s] for a string [s]: a string is equal to strings only. *)
Definition eq_str (v : pyval) (s : string) : bool :=
  match v with VStr s' => String.eqb s' s | _ => false end.

(** The exceptions of Python that the code raises or runs into, and the two
    failures of a selection, which the spec names without giving a class.
    [KeyError] and [AttributeError] carry the key and the name looked up.
    [XarrayValueError] is a [ValueError] raised inside xarray for the named
    dimension or coordinate; its text is xarray's own and is not modelled. *)
Inductive exn : Type :=
| ValueError (msg : string)
| XarrayValueError (what : string)
| NotImplementedError (msg : string)
| KeyError (key : string)
| AttributeError (name : string)
| TypeError
| NotFound
| AmbiguousSelection.

Inductive result (A : Type) : Type :=
| Ok (a : A)
| Raise (e : exn).
Arguments Ok {A} a.
Arguments Raise {A} e.

(** ** Labelled arrays and datasets (the part of xarray the code relies on) *)

(** A position along every named dimension. *)
Definition index : Type := string → nat.

Definition at_dim (d : string) (j : nat) (i : index) : index :=
  fun d' => if String.eqb d' d then j else i d'.

(** A [DataArray]: its named dimensions with their lengths and its entries.
    The entries are exact real numbers; what float64 or int64 entries do
    beyond them (rounding, overflow to [inf], wrap-around, [nan]) is outside
    this type. *)
Record DataArray : Type := mkDataArray {
  dims : list (string * nat);
  data : index → R
}.

(** A [Dataset]: variables (coordinates included) by name, the names that
    are coordinates, and the attribute dictionary. *)
Record Dataset : Type := mkDataset {
  variables : gmap string DataArray;
  coord_names : gset string;
  attrs : gmap string pyval
}.

(** [list(dataset.keys())]: the data variables, coordinates excluded. *)
Definition in_data_variables (k : string) (ds : Dataset) : bool :=
  bool_decide (is_Some (variables ds !! k)) && negb (bool_decide (k ∈ coord_names ds)).

(** [k in list(dataset.coords)] *)
Definition in_data_coords (k : string) (ds : Dataset) : bool :=
  bool_decide (k ∈ coord_names ds).

(** [k in dataset.attrs] *)
Definition in_data_attributes (k : string) (ds : Dataset) : bool :=
  bool_decide (is_Some (attrs ds !! k)).

(** [dataset.attrs.get(k)] *)
Definition attrs_get (ds : Dataset) (k : string) : pyval :=
  default VNone (attrs ds !! k).

(** ** The store, the session and the monad of effects *)

(** Datasets are objects; they are held and passed by reference. *)
Abbreviation ref := nat.

(** An argument that may or may not be an [xarray.Dataset]. *)
Inductive pyobj : Type :=
| ObjDataset (r : ref)
| ObjOther (v : pyval).

(** A piece of a status message: literal text, or [str(v)] of a value. *)
Inductive part : Type :=
| Lit (s : string)
| StrOf (v : pyval).

Record status : Type := mkStatus {
  level : string;
  message : list part
}.

(** The [GCMT] object: the tag-to-dataset mapping and the configured units. *)
Record GCMT : Type := mkGCMT {
  _models : gmap string ref;
  p_unit : string;
  time_unit : string
}.

Record world : Type := mkWorld {
  gcmt : GCMT;
  heap : ref → Dataset;
  written : list status
}.

(** A computation reads and writes the world and returns or raises; what
    was written before an exception stays written. *)
Definition M (A : Type) : Type := world → result A * world.

#[global] Instance M_ret : MRet M := fun A a w => (Ok a, w).
#[global] Instance M_bind : MBind M := fun A B f m w =>
  match m w with
  | (Ok a, w') => f a w'
  | (Raise e, w') => (Raise e, w')
  end.

Definition raise {A : Type} (e : exn) : M A := fun w => (Raise e, w).

Definition get_world : M world := fun w => (Ok w, w).

Definition deref (r : ref) : M Dataset := fun w => (Ok (heap w r), w).

Definition set_heap (r : ref) (ds : Dataset) : M unit := fun w =>
  (Ok tt, mkWorld (gcmt w) (<[r := ds]> (heap w)) (written w)).

Definition set_models (m : gmap string ref) : M unit := fun w =>
  (Ok tt, mkWorld (mkGCMT m (p_unit (gcmt w)) (time_unit (gcmt w))) (heap w) (written w)).

Definition add_written (es : list status) (w : world) : world :=
  mkWorld (gcmt w) (heap w) (written w ++ es).

(** Modelled from the spec: [GCMtools/core/writer.py] is not among the
    sources.  Its [write_status] emits one categorized status message; the
    logging surface is purely observational and never affects control flow. *)
Definition write_status (lvl : string) (msg : list part) : M unit := fun w =>
  (Ok tt, add_written [mkStatus lvl msg] w).

(** [d[k]] on a dictionary of attributes. *)
Definition attrs_item (ds : Dataset) (k : string) : M pyval :=
  match attrs ds !! k with
  | Some v => mret v
  | None => raise (KeyError k)
  end.

(** [for x in xs: acc = body(acc, x)] *)
Fixpoint for_each {A B : Type} (xs : list A) (body : B → A → M B) (acc : B) : M B :=
  match xs with
  | [] => mret acc
  | x :: xs' => acc' ← body acc x; for_each xs' body acc'
  end.

(** ** [GCMtools/utils/passport.py] *)

(** The keys of [GCMtools.core.const.VARNAMES] that the code looks up.  The
    table itself is not among the sources, so the functions take it as a
    parameter. *)
Record VarNames : Type := mkVarNames {
  c_lon : string; c_lat : string; c_Z : string; c_time : string;
  c_T : string; c_U : string; c_V : string; c_W : string;
  c_g : string; c_P_rot : string; c_P_orb : string; c_R_p : string
}.

(** Modelled from the spec: the entries of [VARNAMES] are not among the
    sources; every key is taken to name itself, as the direct uses
    [ds.lat], [ds.R_p], [ds.g], [coord='Z'] and [v_data='V'] in
    [manipulations.py] indicate.  Only concrete examples use this table. *)
Definition VARNAMES : VarNames :=
  mkVarNames "lon" "lat" "Z" "time" "T" "U" "V" "W" "g" "P_rot" "P_orb" "R_p".

Definition dquote : string := String "034"%char EmptyString.

(** The text of the E-INFO message for one missing element. *)
Definition not_basic_message (tag : pyval) (what : string) : list part :=
  [Lit ("The dataset " ++ dquote); StrOf tag;
   Lit (dquote ++ " does not contain " ++ what ++
        " information and therefore does not qualify as a basic GCM dataset.")].

(** One presence test of [is_the_data_basic]:
    [if <not present>: is_the_data_ok = False; wrt.write_status('E-INFO', ...)].
    The message is built, and [dataset.attrs['tag']] evaluated, before
    [write_status] is called. *)
Definition check_present (dataset : Dataset) (present : bool) (what : string)
    (is_the_data_ok : bool) : M bool :=
  if present then mret is_the_data_ok
  else
    tag ← attrs_item dataset "tag";
    write_status "E-INFO" (not_basic_message tag what);;
    mret false.

Section Passport.
Variable c : VarNames.

Definition is_the_data_basic (dataset : Dataset) : M bool :=
  let is_the_data_ok := true in
  let to_be_checked_coords := [c_lon c; c_lat c; c_Z c; c_time c] in
  is_the_data_ok ← for_each to_be_checked_coords
    (fun ok dim => check_present dataset (in_data_coords dim dataset) dim ok)
    is_the_data_ok;
  is_the_data_ok ← check_present dataset (in_data_variables (c_T c) dataset)
    (c_T c ++ " (temperature)") is_the_data_ok;
  is_the_data_ok ← check_present dataset (in_data_variables (c_U c) dataset)
    (c_U c ++ " (equatorial wind)") is_the_data_ok;
  is_the_data_ok ← check_present dataset (in_data_variables (c_V c) dataset)
    (c_V c ++ " (polar wind)") is_the_data_ok;
  is_the_data_ok ← check_present dataset (in_data_variables (c_W c) dataset)
    (c_W c ++ " (vertical wind)") is_the_data_ok;
  is_the_data_ok ← check_present dataset (in_data_attributes (c_g c) dataset)
    (c_g c ++ " (avarage gravity)") is_the_data_ok;
  is_the_data_ok ← check_present dataset (in_data_attributes (c_P_rot c) dataset)
    (c_P_rot c ++ " (rotational period)") is_the_data_ok;
  is_the_data_ok ← check_present dataset (in_data_attributes (c_P_orb c) dataset)
    (c_P_orb c ++ " (orbital period)") is_the_data_ok;
  is_the_data_ok ← check_present dataset (in_data_attributes (c_R_p c) dataset)
    (c_R_p c ++ " (planet radius)") is_the_data_ok;
  (if negb is_the_data_ok
   then write_status "ERROR"
          [Lit "The data does not fulfill the requirements for a basic dataset."]
   else mret tt);;
  mret true.

(** One presence test of [is_the_data_cloudy]:
    [if k not in data_variables: wrt.write_status('WARN', ...); is_the_data_ok = False]. *)
Definition check_cloud (dataset : Dataset) (k descr : string)
    (is_the_data_ok : bool) : M bool :=
  if negb (in_data_variables k dataset) then
    tag ← attrs_item dataset "tag";
    write_status "WARN"
      [Lit (k ++ " (" ++ descr ++ ") is missing from the dataset "); StrOf tag];;
    mret false
  else mret is_the_data_ok.

Definition is_the_data_cloudy (dataset : Dataset) : M bool :=
  is_the_data_basic dataset;;
  let is_the_data_ok := true in
  is_the_data_ok ← check_cloud dataset "ClAb" "cloud abundance" is_the_data_ok;
  is_the_data_ok ← check_cloud dataset "ClDr" "cloud particle radius" is_the_data_ok;
  is_the_data_ok ← check_cloud dataset "ClKs" "cloud scattering opacity" is_the_data_ok;
  is_the_data_ok ← check_cloud dataset "ClKa" "cloud absorption opacity" is_the_data_ok;
  mret is_the_data_ok.

End Passport.

(** ** [GCMtools/GCMtools.py]: the session and its registry *)

(** Modelled from the spec: [GCMtools/GCMDatasetCollection.py] is not among
    the sources.  Selection on the tag-keyed mapping: if a tag is given,
    return that single dataset or fail if it is absent; if the tag is
    omitted, return the single stored dataset if exactly one exists and fail
    if zero or several exist.  With [raise_error=False] the failure is
    replaced by returning [None] (docstring of [GCMT.get_one_model]). *)
Definition collection_get_one_model (models : gmap string ref) (tag : pyval)
    (raise_error : bool) : M (option ref) :=
  match tag with
  | VNone =>
      match map_to_list models with
      | [(_, ds)] => mret (Some ds)
      | _ => if raise_error then raise AmbiguousSelection else mret None
      end
  | VStr t =>
      match models !! t with
      | Some ds => mret (Some ds)
      | None => if raise_error then raise NotFound else mret None
      end
  | VNum _ | VUnhashable => raise TypeError
  end.

(** Modelled from the spec: [GCMDatasetCollection.__setitem__] is not among
    the sources.  It stores the dataset under the tag, overwriting the
    entry if there is one; the keys of the mapping are strings. *)
Definition collection_setitem (tag : pyval) (ds : ref) : M unit :=
  match tag with
  | VStr t => w ← get_world; set_models (<[t := ds]> (_models (gcmt w)))
  | _ => raise TypeError
  end.

(** [tag in self._models.keys()]: hashing the tag comes first, and fails
    for a value that cannot be hashed. *)
Definition in_models_keys (tag : pyval) (models : gmap string ref) : M bool :=
  match tag with
  | VStr t => mret (bool_decide (is_Some (models !! t)))
  | VUnhashable => raise TypeError
  | VNone | VNum _ => mret false
  end.

Definition get_one_model (tag : pyval) (raise_error : bool) : M (option ref) :=
  w ← get_world;
  collection_get_one_model (_models (gcmt w)) tag raise_error.

Definition __getitem__ (tag : pyval) : M (option ref) :=
  w ← get_world;
  known ← in_models_keys tag (_models (gcmt w));
  if negb known then
    raise (ValueError "The provided tag does not exist in the collection")
  else if is_str tag then get_one_model tag true
  else raise (ValueError "key needs to be a string.").

(** [ds.attrs.update({'tag': tag})], in place. *)
Definition attrs_update (r : ref) (k : string) (v : pyval) : M unit :=
  ds ← deref r;
  set_heap r (mkDataset (variables ds) (coord_names ds) (<[k := v]> (attrs ds))).

Section Registry.
Variable c : VarNames.

Definition _replace_model (tag : pyval) (ds : pyobj) : M unit :=
  if negb (is_str tag) then
    raise (ValueError "The provided tag needs to be a string.")
  else
    match ds with
    | ObjOther _ =>
        raise (ValueError "The provided input dataset needs to be a xarray Dataset.")
    | ObjDataset r =>
        d ← deref r;
        basic ← is_the_data_basic c d;
        if negb basic then
          raise (ValueError "The provided input dataset is not compatible.")
        else
          self ← get_world;
          if negb (eq_str (attrs_get d "p_unit") (p_unit (gcmt self))) then
            raise (NotImplementedError "Unit conversion is needed and not yet implemented")
          else if negb (eq_str (attrs_get d "time_unit") (time_unit (gcmt self))) then
            raise (NotImplementedError "Unit conversion is needed and not yet implemented")
          else
            attrs_update r "tag" tag;;
            collection_setitem tag r
    end.

Definition __setitem__ (tag : pyval) (ds : pyobj) : M unit :=
  _replace_model tag ds.

End Registry.

(** ** Array primitives of xarray used by the reductions *)

Open Scope R_scope.

Definition dim_size (d : string) (a : DataArray) : option nat :=
  snd <$> List.find (fun p => String.eqb (fst p) d) (dims a).

Definition has_dim (d : string) (a : DataArray) : bool :=
  bool_decide (is_Some (dim_size d a)).

(** A number as a zero-dimensional array. *)
Definition scalar (x : R) : DataArray := mkDataArray [] (fun _ => x).

(** Binary arithmetic broadcasts by dimension name: the result has the
    dimensions of the left operand followed by the new ones of the right. *)
Definition broadcast (op : R → R → R) (a b : DataArray) : DataArray :=
  mkDataArray
    (dims a ++ List.filter (fun p => negb (has_dim (fst p) a)) (dims b))
    (fun i => op (data a i) (data b i)).

Definition arr_mul : DataArray → DataArray → DataArray := broadcast Rmult.

(** Division of exact reals is total in Rocq ([x / 0 = x * / 0]); where the
    divisor is zero the code yields [inf] or [nan] instead, so properties of
    a quotient are stated for a divisor that is not zero. *)
Definition arr_div : DataArray → DataArray → DataArray := broadcast Rdiv.

Definition arr_map (f : R → R) (a : DataArray) : DataArray :=
  mkDataArray (dims a) (fun i => f (data a i)).

(** [f 0 + ... + f (n-1)] *)
Fixpoint sum_upto (n : nat) (f : nat → R) : R :=
  match n with
  | O => 0
  | S m => sum_upto m f + f m
  end.

(** [a.sum(dim=d)]: fails if the array has no such dimension. *)
Definition sum_dim (a : DataArray) (d : string) : M DataArray :=
  match dim_size d a with
  | None => raise (XarrayValueError d)
  | Some n =>
      mret (mkDataArray
              (List.filter (fun p => negb (String.eqb (fst p) d)) (dims a))
              (fun i => sum_upto n (fun j => data a (at_dim d j i))))
  end.

(** [a.sum(dim=[d1, ..., dn])] *)
Definition arr_sum (a : DataArray) (ds : list string) : M DataArray :=
  for_each ds sum_dim a.

(** Cumulative trapezoidal rule: entry [0] is [0], entry [j] adds
    [(x j - x (j-1)) * 0.5 * (y j + y (j-1))] to entry [j-1]. *)
Fixpoint cumulative_trapezoid (x y : nat → R) (j : nat) : R :=
  match j with
  | O => 0
  | S m => cumulative_trapezoid x y m + (x (S m) - x m) * / 2 * (y (S m) + y m)
  end.

Definition dims_subset (a b : DataArray) : bool :=
  forallb (fun p => has_dim (fst p) b) (dims a).

(** The coordinate [coord] of an array [a] taken from the dataset [ds]: the
    dimension it runs along and its values.  An array carries the
    coordinates of its dataset whose dimensions are among its own; a
    dimension without coordinate variable counts [0, 1, 2, ...]. *)
Definition coordinate_of (ds : Dataset) (a : DataArray) (coord : string)
    : option (option (string * (nat → R))) :=
  let virtual :=
    if has_dim coord a then Some (Some (coord, INR)) else None in
  if in_data_coords coord ds then
    match variables ds !! coord with
    | Some cv =>
        if dims_subset cv a then
          match dims cv with
          | [(d, _)] => Some (Some (d, fun j => data cv (at_dim d j (fun _ => O))))
          | _ => Some None
          end
        else virtual
    | None => virtual
    end
  else virtual.

(** [a.cumulative_integrate(coord=coord)] for an array [a] of [ds]. *)
Definition cumulative_integrate (ds : Dataset) (a : DataArray) (coord : string)
    : M DataArray :=
  match coordinate_of ds a coord with
  | None => raise (XarrayValueError coord)
  | Some None => raise (XarrayValueError coord)
  | Some (Some (d, x)) =>
      mret (mkDataArray (dims a)
              (fun i => cumulative_trapezoid x (fun j => data a (at_dim d j i)) (i d)))
  end.

(** What attribute access on a dataset yields: a variable or an attribute. *)
Inductive operand : Type :=
| OArr (a : DataArray)
| OVal (v : pyval).

(** The length of dimension [name] in the dataset, if some variable has it. *)
Definition ds_dim_size (ds : Dataset) (name : string) : option nat :=
  head (omap (fun p => dim_size name (snd p)) (map_to_list (variables ds))).

(** The index [0, 1, 2, ...] that xarray supplies for a dimension without
    coordinate variable. *)
Definition default_index (name : string) (n : nat) : DataArray :=
  mkDataArray [(name, n)] (fun i => INR (i name)).

(** [ds[key]]: a variable of the dataset (a coordinate included), or the
    index of a dimension that has no coordinate variable.  The dotted names
    of xarray (['time.year']) are not modelled: the properties of failing
    lookups below are stated for names without a dot. *)
Definition getitem (ds : Dataset) (key : string) : M DataArray :=
  match variables ds !! key with
  | Some a => mret a
  | None =>
      match ds_dim_size ds key with
      | Some n => mret (default_index key n)
      | None => raise (KeyError key)
      end
  end.

(** [ds.name]: the variables of the dataset are looked up first, then its
    dimensions (one without coordinate variable counts [0, 1, 2, ...]),
    and its attribute dictionary last. *)
Definition getattr (ds : Dataset) (name : string) : M operand :=
  match variables ds !! name with
  | Some a => mret (OArr a)
  | None =>
      match ds_dim_size ds name with
      | Some n => mret (OArr (mkDataArray [(name, n)] (fun i => INR (i name))))
      | None =>
          match attrs ds !! name with
          | Some v => mret (OVal v)
          | None => raise (AttributeError name)
          end
      end
  end.

(** An operand of array arithmetic; only numbers and arrays are. *)
Definition as_array (o : operand) : M DataArray :=
  match o with
  | OArr a => mret a
  | OVal (VNum x) => mret (scalar x)
  | OVal _ => raise TypeError
  end.

(** [ds.update({key: a})], in place. *)
Definition ds_update (r : ref) (key : string) (a : DataArray) : M unit :=
  ds ← deref r;
  set_heap r (mkDataset (<[key := a]> (variables ds)) (coord_names ds) (attrs ds)).

(** ** [GCMtools/utils/manipulations.py] *)

(** [wrt.write_status('INFO', 'Tag: ' + tag)] when a tag is given. *)
Definition write_tag (tag : pyval) : M unit :=
  match tag with
  | VNone => mret tt
  | VStr t => write_status "INFO" [Lit ("Tag: " ++ t)]
  | VNum _ | VUnhashable => raise TypeError
  end.

Definition write_output (var_key_out : option string) : M unit :=
  match var_key_out with
  | Some k => write_status "INFO" [Lit ("Output variable: " ++ k)]
  | None => mret tt
  end.

(** The dataset a selection returned; [None] is no dataset. *)
Definition selected (o : option ref) : M ref :=
  match o with
  | Some r => mret r
  | None => raise TypeError
  end.

Section Manipulations.
Variable c : VarNames.

Definition m_add_horizontal_average (var_key : string)
    (var_key_out : option string) (area_key : string) (tag : pyval)
    : M DataArray :=
  write_status "STAT" [Lit "Calculate horizontal average"];;
  write_tag tag;;
  write_status "INFO" [Lit ("Variable to be plotted: " ++ var_key)];;
  write_output var_key_out;;
  write_status "INFO" [Lit ("Area of grid cells: " ++ area_key)];;
  ds ← get_one_model tag true ≫= selected;
  d ← deref ds;
  area ← getitem d area_key;
  field ← getitem d var_key;
  weighted ← arr_sum (arr_mul area field) [c_lon c; c_lat c];
  area' ← getitem d area_key;
  total ← arr_sum area' [c_lon c; c_lat c];
  let avg := arr_div weighted total in
  match var_key_out with
  | Some k => ds_update ds k avg
  | None => mret tt
  end;;
  mret avg.

End Manipulations.

Definition m_add_meridional_overturning (ds : ref) (v_data : string)
    (var_key_out : option string) (tag : pyval) : M DataArray :=
  write_status "STAT" [Lit "Calculate meridional overturning streamfunction"];;
  write_tag tag;;
  write_output var_key_out;;
  d ← deref ds;
  v ← getitem d v_data;
  V_integral ← cumulative_integrate d v "Z";
  let V_integral :=
    if eq_str (attrs_get d "p_unit") "bar"
    then arr_div V_integral (scalar 1.0e5)
    else V_integral in
  lat ← getattr d "lat" ≫= as_array;
  let factor :=
    arr_mul (scalar (2 * PI))
            (arr_map cos (arr_mul (arr_div lat (scalar 180)) (scalar PI))) in
  R_p ← getattr d "R_p" ≫= as_array;
  let factor := arr_mul factor R_p in
  g ← getattr d "g" ≫= as_array;
  let psi := arr_mul (arr_div factor g) V_integral in
  match var_key_out with
  | Some k => ds_update ds k psi
  | None => mret tt
  end;;
  mret psi.

(** [GCMT.add_horizontal_average] and [GCMT.add_meridional_overturning] *)
Definition add_horizontal_average (c : VarNames) (var_key : string)
    (var_key_out : option string) (area_key : string) (tag : pyval) : M DataArray :=
  m_add_horizontal_average c var_key var_key_out area_key tag.

Definition add_meridional_overturning (v_data : string)
    (var_key_out : option string) (tag : pyval) : M DataArray :=
  ds ← get_one_model tag true ≫= selected;
  m_add_meridional_overturning ds v_data var_key_out tag.

(** ** What the spec calls a basic and a cloudy dataset *)

Definition required_coords (c : VarNames) : list string :=
  [c_lon c; c_lat c; c_Z c; c_time c].
Definition required_fields (c : VarNames) : list string :=
  [c_T c; c_U c; c_V c; c_W c].
Definition required_attrs (c : VarNames) : list string :=
  [c_g c; c_P_rot c; c_P_orb c; c_R_p c].
Definition cloud_fields : list string := ["ClAb"; "ClDr"; "ClKs"; "ClKa"].

(** No required coordinate, field or scalar attribute is missing. *)
Definition misses_nothing (c : VarNames) (ds : Dataset) : bool :=
  forallb (fun k => in_data_coords k ds) (required_coords c)
  && forallb (fun k => in_data_variables k ds) (required_fields c)
  && forallb (fun k => in_data_attributes k ds) (required_attrs c).

Definition has_cloud_fields (ds : Dataset) : bool :=
  forallb (fun k => in_data_variables k ds) cloud_fields.

(** The presence tests of [is_the_data_basic] in the order it runs them,
    each with the words its message uses for the element. *)
Definition basic_checks (c : VarNames) (ds : Dataset) : list (bool * string) :=
  [ (in_data_coords (c_lon c) ds, c_lon c);
    (in_data_coords (c_lat c) ds, c_lat c);
    (in_data_coords (c_Z c) ds, c_Z c);
    (in_data_coords (c_time c) ds, c_time c);
    (in_data_variables (c_T c) ds, c_T c ++ " (temperature)");
    (in_data_variables (c_U c) ds, c_U c ++ " (equatorial wind)");
    (in_data_variables (c_V c) ds, c_V c ++ " (polar wind)");
    (in_data_variables (c_W c) ds, c_W c ++ " (vertical wind)");
    (in_data_attributes (c_g c) ds, c_g c ++ " (avarage gravity)");
    (in_data_attributes (c_P_rot c) ds, c_P_rot c ++ " (rotational period)");
    (in_data_attributes (c_P_orb c) ds, c_P_orb c ++ " (orbital period)");
    (in_data_attributes (c_R_p c) ds, c_R_p c ++ " (planet radius)") ].

Definition complaint (tag : pyval) (chk : bool * string) : list status :=
  if fst chk then [] else [mkStatus "E-INFO" (not_basic_message tag (snd chk))].

(** What [is_the_data_basic] writes for a dataset tagged [tag]: one E-INFO
    message per missing element, then one ERROR message if any was missing. *)
Definition basic_report (c : VarNames) (tag : pyval) (ds : Dataset) : list status :=
  flat_map (complaint tag) (basic_checks c ds)
  ++ (if forallb fst (basic_checks c ds) then []
      else [mkStatus "ERROR"
              [Lit "The data does not fulfill the requirements for a basic dataset."]]).

Definition cloud_checks (ds : Dataset) : list (bool * (string * string)) :=
  [ (in_data_variables "ClAb" ds, ("ClAb", "cloud abundance"));
    (in_data_variables "ClDr" ds, ("ClDr", "cloud particle radius"));
    (in_data_variables "ClKs" ds, ("ClKs", "cloud scattering opacity"));
    (in_data_variables "ClKa" ds, ("ClKa", "cloud absorption opacity")) ].

Definition cloud_warning (tag : pyval) (chk : bool * (string * string)) : list status :=
  if fst chk then []
  else [mkStatus "WARN"
          [Lit (fst (snd chk) ++ " (" ++ snd (snd chk) ++ ") is missing from the dataset ");
           StrOf tag]].

Definition cloud_report (tag : pyval) (ds : Dataset) : list status :=
  flat_map (cloud_warning tag) (cloud_checks ds).

(** ** Concrete sessions and datasets *)

(** A dataset with nothing in it and no tag. *)
Definition ds_empty : Dataset := mkDataset ∅ ∅ ∅.

Definition axis (d : string) (n : nat) : DataArray :=
  mkDataArray [(d, n)] (fun i => INR (i d)).

(** A 2 x 2 x 2 x 1 grid; the cell areas differ from cell to cell. *)
Definition grid : list (string * nat) :=
  [("time", 1%nat); ("Z", 2%nat); ("lat", 2%nat); ("lon", 2%nat)].

Definition area_c : DataArray :=
  mkDataArray [("lat", 2%nat); ("lon", 2%nat)] (fun i => 1 + INR (i "lat") + 2 * INR (i "lon")).

Definition uniform (k : R) : DataArray := mkDataArray grid (fun _ => k).

Definition wind : DataArray := mkDataArray grid (fun i => INR (i "Z") + INR (i "lat")).

(** A complete basic dataset in bar and days that has not been tagged. *)
Definition ds_basic : Dataset :=
  mkDataset
    (list_to_map
       [("lon", axis "lon" 2); ("lat", axis "lat" 2); ("Z", axis "Z" 2);
        ("time", axis "time" 1);
        ("T", uniform 300); ("U", uniform 0); ("V", wind); ("W", uniform 0);
        ("area_c", area_c)])
    (list_to_set ["lon"; "lat"; "Z"; "time"])
    (list_to_map
       [("g", VNum 10); ("P_rot", VNum 86400); ("P_orb", VNum 86400);
        ("R_p", VNum 70000000); ("p_unit", VStr "bar"); ("time_unit", VStr "day")]).

(** The same dataset carrying the tag ["run0"]. *)
Definition ds_tagged : Dataset :=
  mkDataset (variables ds_basic) (coord_names ds_basic)
            (<["tag" := VStr "run0"]> (attrs ds_basic)).

(** A tagged dataset without temperature, in pascal. *)
Definition ds_pascal : Dataset :=
  mkDataset (delete "T" (variables ds_basic)) (coord_names ds_basic)
            (<["p_unit" := VStr "Pa"]> (attrs ds_tagged)).

(** The tagged dataset with the four cloud fields. *)
Definition ds_cloudy : Dataset :=
  mkDataset
    (<["ClAb" := uniform 0]> (<["ClDr" := uniform 0]> (<["ClKs" := uniform 0]>
       (<["ClKa" := uniform 0]> (variables ds_basic)))))
    (coord_names ds_basic) (attrs ds_tagged).

Definition store0 (r : ref) : Dataset :=
  match r with
  | 0%nat => ds_empty
  | 1%nat => ds_basic
  | 2%nat => ds_tagged
  | 3%nat => ds_pascal
  | _ => ds_cloudy
  end.

(** A fresh session [GCMT(p_unit='bar', time_unit='day')]. *)
Definition w_fresh : world := mkWorld (mkGCMT ∅ "bar" "day") store0 [].

(** The session with dataset 2 stored under ["run0"]. *)
Definition w_one : world := mkWorld (mkGCMT {[ "run0" := 2%nat ]} "bar" "day") store0 [].

(** The session with two stored datasets. *)
Definition w_two : world :=
  mkWorld (mkGCMT (<["run1" := 4%nat]> {[ "run0" := 2%nat ]}) "bar" "day") store0 [].

(** ** Notions used to state the properties *)

(** The exception of the two unit guards of [_replace_model]. *)
Definition unit_conversion_needed : exn :=
  NotImplementedError "Unit conversion is needed and not yet implemented".

(** The dataset [ds] after [ds.attrs.update({'tag': tag})]. *)
Definition stamped (tag : pyval) (ds : Dataset) : Dataset :=
  mkDataset (variables ds) (coord_names ds) (<["tag" := tag]> (attrs ds)).

(** The world after a successful [_replace_model(t, ds)] that wrote [es]. *)
Definition inserted (t : string) (r : ref) (es : list status) (w : world) : world :=
  mkWorld (mkGCMT (<[t := r]> (_models (gcmt w))) (p_unit (gcmt w)) (time_unit (gcmt w)))
          (<[r := stamped (VStr t) (heap w r)]> (heap w))
          (written w ++ es).

(** The [p_unit] or the [time_unit] attribute of [ds] differs from the unit
    configured in the session. *)
Definition units_differ (ds : Dataset) (self : GCMT) : bool :=
  negb (eq_str (attrs_get ds "p_unit") (p_unit self))
  || negb (eq_str (attrs_get ds "time_unit") (time_unit self)).

(** The dataset at [r] after [ds.update({key: a})]. *)
Definition updated (key : string) (a : DataArray) (ds : Dataset) : Dataset :=
  mkDataset (<[key := a]> (variables ds)) (coord_names ds) (attrs ds).

(** The world after a reduction that wrote [es] and, if an output name was
    supplied, stored its result [a] in the dataset at [r]. *)
Definition reduced (var_key_out : option string) (r : ref) (a : DataArray)
    (es : list status) (w : world) : world :=
  match var_key_out with
  | Some k => mkWorld (gcmt w) (<[r := updated k a (heap w r)]> (heap w)) (written w ++ es)
  | None => add_written es w
  end.

(** The sum of [f] over the [n] x [m] positions along [lon] and [lat]. *)
Definition sum_lon_lat (lon lat : string) (n m : nat) (f : index → R) (i : index) : R :=
  sum_upto m (fun y => sum_upto n (fun x => f (at_dim lon x (at_dim lat y i)))).

(** The dataset at [r] holds [a] under [k]; its other variables, its
    coordinates and its attributes, the other datasets and the registry are
    as in [w]. *)
Definition stored_in (k : string) (a : DataArray) (r : ref) (w w' : world) : Prop :=
  variables (heap w' r) !! k = Some a
  ∧ (∀ k', k' ≠ k → variables (heap w' r) !! k' = variables (heap w r) !! k')
  ∧ coord_names (heap w' r) = coord_names (heap w r)
  ∧ attrs (heap w' r) = attrs (heap w r)
  ∧ (∀ r', r' ≠ r → heap w' r' = heap w r')
  ∧ gcmt w' = gcmt w.

(** Every dataset and the registry are as in [w]. *)
Definition untouched (w w' : world) : Prop :=
  heap w' = heap w ∧ gcmt w' = gcmt w.

(** A computation that at most writes status messages. *)
Definition only_writes {A : Type} (m : M A) : Prop :=
  ∀ w, ∃ es, snd (m w) = add_written es w.


(** The attribute [name] of [ds] is a number and no variable or dimension
    of [ds] hides it. *)
Definition scalar_attr (ds : Dataset) (name : string) (x : R) : Prop :=
  variables ds !! name = None
  ∧ ds_dim_size ds name = None
  ∧ attrs ds !! name = Some (VNum x).

(** The values of the coordinate [Z] of the example datasets. *)
Definition z_levels (j : nat) : R := data (axis "Z" 2) (at_dim "Z" j (fun _ => O)).

(** ** The remaining methods of [GCMT] *)

(** [GCMT.__len__]: [len(self._models)]. *)
Definition __len__ : M nat :=
  self ← get_world;
  mret (size (_models (gcmt self))).

(** [GCMT.__bool__]: [bool(self._models)], true for a non-empty mapping. *)
Definition __bool__ : M bool :=
  self ← get_world;
  mret (negb (Nat.eqb (size (_models (gcmt self))) 0)).

(** [bool(ds)] for an [xarray.Dataset]: whether it has a data variable. *)
Definition dataset_bool (ds : Dataset) : bool :=
  existsb (fun p => negb (bool_decide (fst p ∈ coord_names ds)))
          (map_to_list (variables ds)).

(** [GCMT.get]: [if ds := self.get_one_model(tag, raise_error=False): return ds]
    and [return default] otherwise. *)
Definition get (tag : pyval) (default : pyval) : M pyobj :=
  o ← get_one_model tag false;
  match o with
  | Some ds =>
      d ← deref ds;
      if dataset_bool d then mret (ObjDataset ds) else mret (ObjOther default)
  | None => mret (ObjOther default)
  end.

(** [GCMT.__init__].  Neither the tables [ALLOWED_PUNITS] and
    [ALLOWED_TIMEUNITS] of [GCMtools/core/units.py] nor the writer functions
    of [GCMtools/core/writer.py] are among the sources; the constructor
    takes them as parameters, together with the rendering of a table inside
    an f-string.  It returns the new session. *)
Section Constructor.
Variables ALLOWED_PUNITS ALLOWED_TIMEUNITS : list string.
Variable str_of_units : list string → string.
Variable writer_setup : pyval → M unit.
Variable write_hline : M unit.
Variable write_message : string → string → Z → M unit.
Variable line_length : Z.

Definition __init__ (p_unit time_unit : string) (write : pyval) : M GCMT :=
  let _models : gmap string ref := ∅ in
  if negb (bool_decide (p_unit ∈ ALLOWED_PUNITS)) then
    raise (ValueError ("Please use a pressure unit from " ++ str_of_units ALLOWED_PUNITS))
  else if negb (bool_decide (time_unit ∈ ALLOWED_TIMEUNITS)) then
    raise (ValueError ("Please use a time unit from " ++ str_of_units ALLOWED_TIMEUNITS))
  else
    writer_setup write;;
    write_hline;;
    let hello := "Welcome to GCMtools" in
    write_message hello "WARN" ((line_length - Z.of_nat (String.length hello)) / 2)%Z;;
    write_hline;;
    write_status "STAT" [Lit "Set up GCMtools"];;
    write_status "INFO" [Lit ("pressure units: " ++ p_unit)];;
    write_status "INFO" [Lit ("time units: " ++ time_unit)];;
    mret (mkGCMT _models p_unit time_unit).

End Constructor.

(** ** Further notions used to state the properties *)

(** The invariant of the registry: every stored dataset carries the tag it
    is stored under. *)
Definition tags_match (w : world) : Prop :=
  ∀ t r, _models (gcmt w) !! t = Some r → attrs (heap w r) !! "tag" = Some (VStr t).

(** The elements [is_the_data_basic] finds missing, in the order it looks. *)
Definition missing_basic (c : VarNames) (ds : Dataset) : list string :=
  snd <$> List.filter (fun chk => negb (fst chk)) (basic_checks c ds).

(** A writer that records every call as a status message. *)
Definition recording_message (msg color : string) (spacing : Z) : M unit :=
  write_status color [Lit msg].

(** A tagged dataset in bar and days that holds nothing but attributes. *)
Definition ds_bare : Dataset := mkDataset ∅ ∅ (attrs ds_tagged).

(** A fresh session whose store holds that dataset. *)
Definition w_bare : world := mkWorld (mkGCMT ∅ "bar" "day") (fun _ => ds_bare) [].




(** A computation that returns after writing status messages only. *)
Definition returns_writing (m : M unit) : Prop :=
  ∀ w, ∃ es, m w = (Ok tt, add_written es w).

(** [ds.name] used as an operand of array arithmetic is the array [a]. *)
Definition resolves_to (ds : Dataset) (name : string) (a : DataArray) : Prop :=
  ∀ w, (getattr ds name ≫= as_array) w = (Ok a, w).




(** The name has no dot in it; xarray reads a dotted name as a component of
    another variable. *)
Definition undotted (name : string) : bool :=
  match String.index 0 "." name with
  | Some _ => false
  | None => true
  end.

(** ** The horizontal average in binary64 *)











(** * Properties *)

(** ** Running computations *)

Lemma bind_run {A B : Type} (m : M A) (f : A → M B) (w : world) :
  (m ≫= f) w =
  match m w with
  | (Ok a, w') => f a w'
  | (Raise e, w') => (Raise e, w')
  end.
Proof. reflexivity. Qed.

Lemma bind_ok {A B : Type} (m : M A) (f : A → M B) (w w' : world) (a : A) :
  m w = (Ok a, w') → (m ≫= f) w = f a w'.
Proof. intros H. rewrite bind_run, H. reflexivity. Qed.

Lemma bind_raise {A B : Type} (m : M A) (f : A → M B) (w w' : world) (e : exn) :
  m w = (Raise e, w') → (m ≫= f) w = (Raise e, w').
Proof. intros H. rewrite bind_run, H. reflexivity. Qed.

Lemma add_written_nil (w : world) : add_written [] w = w.
Proof. destruct w. unfold add_written. simpl. by rewrite app_nil_r. Qed.

Lemma add_written_app (es es' : list status) (w : world) :
  add_written es' (add_written es w) = add_written (es ++ es') w.
Proof. unfold add_written. simpl. by rewrite app_assoc. Qed.

(** Writing status messages touches neither the registry nor the store. *)
Lemma add_written_gcmt (es : list status) (w : world) : gcmt (add_written es w) = gcmt w.
Proof. reflexivity. Qed.

Lemma add_written_heap (es : list status) (w : world) : heap (add_written es w) = heap w.
Proof. reflexivity. Qed.

(** ** The passport checks *)

Lemma check_present_tagged (ds : Dataset) (tag : pyval) (present : bool)
    (what : string) (ok : bool) (w : world) :
  attrs ds !! "tag" = Some tag →
  check_present ds present what ok w =
  (Ok (ok && present), add_written (complaint tag (present, what)) w).
Proof.
  intros Htag. unfold check_present, complaint, attrs_item. rewrite Htag.
  destruct present; simpl.
  - by rewrite add_written_nil, andb_true_r.
  - by rewrite andb_false_r.
Qed.

Lemma check_present_untagged (ds : Dataset) (present : bool) (what : string)
    (ok : bool) (w : world) :
  attrs ds !! "tag" = None →
  check_present ds present what ok w =
  if present then (Ok ok, w) else (Raise (KeyError "tag"), w).
Proof.
  intros Htag. unfold check_present, attrs_item. rewrite Htag.
  by destruct present.
Qed.

Lemma check_cloud_tagged (ds : Dataset) (tag : pyval) (k descr : string)
    (ok : bool) (w : world) :
  attrs ds !! "tag" = Some tag →
  check_cloud ds k descr ok w =
  (Ok (ok && in_data_variables k ds),
   add_written (cloud_warning tag (in_data_variables k ds, (k, descr))) w).
Proof.
  intros Htag. unfold check_cloud, cloud_warning, attrs_item. rewrite Htag.
  destruct (in_data_variables k ds); simpl.
  - by rewrite add_written_nil, andb_true_r.
  - by rewrite andb_false_r.
Qed.

Lemma check_cloud_untagged (ds : Dataset) (k descr : string) (ok : bool) (w : world) :
  attrs ds !! "tag" = None →
  check_cloud ds k descr ok w =
  if in_data_variables k ds then (Ok ok, w) else (Raise (KeyError "tag"), w).
Proof.
  intros Htag. unfold check_cloud, attrs_item. rewrite Htag.
  by destruct (in_data_variables k ds).
Qed.

Lemma misses_nothing_checks (c : VarNames) (ds : Dataset) :
  forallb fst (basic_checks c ds) = misses_nothing c ds.
Proof.
  unfold misses_nothing, basic_checks, required_coords, required_fields,
    required_attrs. simpl. rewrite !andb_true_r, <- !andb_assoc. reflexivity.
Qed.

(** On a tagged dataset the basic check runs all its tests, writes its
    report and returns [True]. *)
Lemma is_the_data_basic_tagged (c : VarNames) (ds : Dataset) (tag : pyval) (w : world) :
  attrs ds !! "tag" = Some tag →
  is_the_data_basic c ds w = (Ok true, add_written (basic_report c tag ds) w).
Proof.
  intros Htag. unfold is_the_data_basic. cbn [for_each].
  repeat (rewrite ?bind_run; rewrite (check_present_tagged _ tag) by exact Htag;
          cbv beta iota).
  rewrite ?bind_run. cbn [mret M_ret]. cbv beta iota.
  repeat (rewrite ?bind_run; rewrite (check_present_tagged _ tag) by exact Htag;
          cbv beta iota).
  rewrite !add_written_app. unfold basic_report, basic_checks.
  cbn [flat_map forallb fst andb]. rewrite andb_true_r, !andb_assoc, app_nil_r.
  rewrite bind_run.
  match goal with |- context [negb ?b] => destruct b end;
    cbn [negb write_status mret M_ret].
  - by rewrite app_nil_r.
  - by rewrite add_written_app.
Qed.

(** On an untagged dataset the first missing element stops the check:
    building its message fails on [dataset.attrs['tag']]. *)
Lemma is_the_data_basic_untagged (c : VarNames) (ds : Dataset) (w : world) :
  attrs ds !! "tag" = None →
  is_the_data_basic c ds w =
  if misses_nothing c ds then (Ok true, w) else (Raise (KeyError "tag"), w).
Proof.
  intros Htag. rewrite <- misses_nothing_checks.
  unfold is_the_data_basic, basic_checks. cbn [for_each forallb fst].
  repeat (rewrite ?bind_run; rewrite check_present_untagged by exact Htag;
          match goal with
          | |- context [if ?b then (Ok _, _) else (Raise _, _)] => destruct b
          end; cbn [andb]; [| reflexivity]; cbv beta iota).
  rewrite ?bind_run. cbn [mret M_ret]. cbv beta iota.
  repeat (rewrite ?bind_run; rewrite check_present_untagged by exact Htag;
          match goal with
          | |- context [if ?b then (Ok _, _) else (Raise _, _)] => destruct b
          end; cbn [andb]; [| reflexivity]; cbv beta iota).
  reflexivity.
Qed.

(** The basic check has no path that returns [False]. *)
Lemma is_the_data_basic_never_false (c : VarNames) (ds : Dataset) (w : world) :
  fst (is_the_data_basic c ds w) ≠ Ok false.
Proof.
  destruct (attrs ds !! "tag") as [tag|] eqn:Htag.
  - by rewrite (is_the_data_basic_tagged c ds tag w Htag).
  - rewrite (is_the_data_basic_untagged c ds w Htag).
    by destruct (misses_nothing c ds).
Qed.

Lemma is_the_data_cloudy_tagged (c : VarNames) (ds : Dataset) (tag : pyval) (w : world) :
  attrs ds !! "tag" = Some tag →
  is_the_data_cloudy c ds w =
  (Ok (has_cloud_fields ds),
   add_written (basic_report c tag ds ++ cloud_report tag ds) w).
Proof.
  intros Htag. unfold is_the_data_cloudy.
  rewrite bind_run, (is_the_data_basic_tagged c ds tag w Htag). cbv beta iota.
  repeat (rewrite ?bind_run; rewrite (check_cloud_tagged _ tag) by exact Htag;
          cbv beta iota).
  cbn [mret M_ret]. rewrite !add_written_app.
  unfold has_cloud_fields, cloud_report, cloud_checks, cloud_fields.
  cbn [flat_map forallb andb].
  by rewrite andb_true_r, !andb_assoc, app_nil_r.
Qed.

Lemma is_the_data_cloudy_untagged (c : VarNames) (ds : Dataset) (w : world) :
  attrs ds !! "tag" = None →
  is_the_data_cloudy c ds w =
  if misses_nothing c ds && has_cloud_fields ds
  then (Ok true, w) else (Raise (KeyError "tag"), w).
Proof.
  intros Htag. unfold is_the_data_cloudy.
  rewrite bind_run, (is_the_data_basic_untagged c ds w Htag).
  destruct (misses_nothing c ds); [| reflexivity]. cbv beta iota.
  unfold has_cloud_fields, cloud_fields. cbn [forallb andb].
  repeat (rewrite ?bind_run; rewrite check_cloud_untagged by exact Htag;
          match goal with
          | |- context [if ?b then (Ok _, _) else (Raise _, _)] => destruct b
          end; cbn [andb]; [| reflexivity]; cbv beta iota).
  reflexivity.
Qed.

(** The basic check only writes status messages. *)
Lemma is_the_data_basic_frame (c : VarNames) (ds : Dataset) (w : world) :
  ∃ es, snd (is_the_data_basic c ds w) = add_written es w.
Proof.
  destruct (attrs ds !! "tag") as [tag|] eqn:Htag.
  - rewrite (is_the_data_basic_tagged c ds tag w Htag). eauto.
  - rewrite (is_the_data_basic_untagged c ds w Htag). exists [].
    rewrite add_written_nil. by destruct (misses_nothing c ds).
Qed.

Lemma is_the_data_basic_raises (c : VarNames) (ds : Dataset) (w : world) (e : exn) :
  fst (is_the_data_basic c ds w) = Raise e →
  is_the_data_basic c ds w = (Raise (KeyError "tag"), w).
Proof.
  destruct (attrs ds !! "tag") as [tag|] eqn:Htag.
  - by rewrite (is_the_data_basic_tagged c ds tag w Htag).
  - rewrite (is_the_data_basic_untagged c ds w Htag).
    by destruct (misses_nothing c ds).
Qed.

(** ** Insertion into the registry *)

Lemma _replace_model_non_str (c : VarNames) (tag : pyval) (ds : pyobj) (w : world) :
  is_str tag = false →
  _replace_model c tag ds w =
  (Raise (ValueError "The provided tag needs to be a string."), w).
Proof. intros H. unfold _replace_model. by rewrite H. Qed.

(** What insertion does once the basic check has returned. *)
Lemma _replace_model_checked (c : VarNames) (t : string) (r : ref)
    (es : list status) (w : world) :
  is_the_data_basic c (heap w r) w = (Ok true, add_written es w) →
  _replace_model c (VStr t) (ObjDataset r) w =
  if negb (eq_str (attrs_get (heap w r) "p_unit") (p_unit (gcmt w))) then
    (Raise unit_conversion_needed, add_written es w)
  else if negb (eq_str (attrs_get (heap w r) "time_unit") (time_unit (gcmt w))) then
    (Raise unit_conversion_needed, add_written es w)
  else (Ok tt, inserted t r es w).
Proof.
  intros Hbasic. unfold _replace_model. cbn [is_str negb].
  rewrite bind_run. unfold deref at 1. cbv beta iota.
  rewrite bind_run, Hbasic. cbv beta iota. cbn [negb].
  rewrite bind_run. unfold get_world at 1. cbv beta iota.
  rewrite add_written_gcmt.
  destruct (eq_str (attrs_get (heap w r) "p_unit") (p_unit (gcmt w))); [| reflexivity].
  destruct (eq_str (attrs_get (heap w r) "time_unit") (time_unit (gcmt w)));
    reflexivity.
Qed.

(** What insertion does when the basic check raises. *)
Lemma _replace_model_unchecked (c : VarNames) (t : string) (r : ref) (w : world) :
  attrs (heap w r) !! "tag" = None →
  misses_nothing c (heap w r) = false →
  _replace_model c (VStr t) (ObjDataset r) w = (Raise (KeyError "tag"), w).
Proof.
  intros Htag Hmiss. unfold _replace_model. cbn [is_str negb].
  rewrite bind_run. unfold deref at 1. cbv beta iota.
  rewrite bind_run, (is_the_data_basic_untagged c _ w Htag), Hmiss. reflexivity.
Qed.

(** The 'not compatible' branch is never taken. *)
Lemma _replace_model_compatible (c : VarNames) (tag : pyval) (ds : pyobj) (w : world) :
  fst (_replace_model c tag ds w) ≠
  Raise (ValueError "The provided input dataset is not compatible.").
Proof.
  destruct (is_str tag) eqn:Hstr.
  2: { by rewrite (_replace_model_non_str c tag ds w Hstr). }
  destruct tag as [|t| |]; try discriminate. destruct ds as [r|v]; [| done].
  destruct (is_the_data_basic c (heap w r) w) as [[b|e] w1] eqn:Hbasic.
  - pose proof (is_the_data_basic_never_false c (heap w r) w) as Hnf.
    pose proof (is_the_data_basic_frame c (heap w r) w) as [es Hes].
    rewrite Hbasic in Hnf, Hes. simpl in Hnf, Hes. subst w1.
    destruct b; [| done].
    rewrite (_replace_model_checked c t r es w Hbasic).
    repeat case_match; done.
  - unfold _replace_model. cbn [is_str negb].
    rewrite bind_run. unfold deref at 1. cbv beta iota.
    rewrite bind_run, Hbasic. cbv beta iota. simpl.
    pose proof (is_the_data_basic_raises c (heap w r) w e) as Hr.
    rewrite Hbasic in Hr. specialize (Hr eq_refl). by inversion Hr.
Qed.

(** ** Selection from the registry *)

Lemma map_to_list_size_1 (m : gmap string ref) :
  size m = 1%nat → ∃ t r, map_to_list m = [(t, r)] ∧ m !! t = Some r.
Proof.
  rewrite <- length_map_to_list. intros Hlen.
  destruct (map_to_list m) as [|[t r] [|p l]] eqn:Hl; try discriminate.
  exists t, r. split; [done |].
  apply elem_of_map_to_list. rewrite Hl. apply list_elem_of_here.
Qed.

Lemma collection_get_one_model_no_tag (models : gmap string ref) (w : world) :
  collection_get_one_model models VNone true w =
  match map_to_list models with
  | [(_, ds)] => (Ok (Some ds), w)
  | _ => (Raise AmbiguousSelection, w)
  end.
Proof.
  unfold collection_get_one_model.
  destruct (map_to_list models) as [|[t r] [|p l]]; reflexivity.
Qed.

(** C3: selecting with no tag, [get_one_model(tag=None)] with
    [raise_error=True], fails when the registry holds no dataset or two or
    more datasets, and returns the sole stored dataset when exactly one is
    stored.  The world is left as it was. *)
Theorem get_one_model_no_tag (w : world) :
  (size (_models (gcmt w)) = 0%nat ∨ (2 ≤ size (_models (gcmt w)))%nat →
   get_one_model VNone true w = (Raise AmbiguousSelection, w))
  ∧ (size (_models (gcmt w)) = 1%nat →
     ∃ t ds, _models (gcmt w) !! t = Some ds
             ∧ get_one_model VNone true w = (Ok (Some ds), w)).
Proof.
  unfold get_one_model. rewrite bind_run. unfold get_world. cbv beta iota.
  rewrite collection_get_one_model_no_tag. split.
  - rewrite <- length_map_to_list.
    destruct (map_to_list (_models (gcmt w))) as [|[t r] [|p l]]; simpl;
      intros [H|H]; first [done | lia].
  - intros Hone. destruct (map_to_list_size_1 _ Hone) as (t & r & Hl & Hlook).
    exists t, r. by rewrite Hl.
Qed.

Lemma get_one_model_no_tag_witness :
  get_one_model VNone true w_fresh = (Raise AmbiguousSelection, w_fresh)
  ∧ get_one_model VNone true w_two = (Raise AmbiguousSelection, w_two)
  ∧ ∃ t ds, _models (gcmt w_one) !! t = Some ds
            ∧ get_one_model VNone true w_one = (Ok (Some ds), w_one).
Proof.
  split; [| split].
  - apply (proj1 (get_one_model_no_tag w_fresh)). left. reflexivity.
  - apply (proj1 (get_one_model_no_tag w_two)). right. vm_compute. lia.
  - apply (proj2 (get_one_model_no_tag w_one)). reflexivity.
Defined.

(** ** The basic check at the public interface *)

(** On every dataset that carries a ['tag'] attribute, [is_the_data_basic]
    returns [True] whatever is missing, after writing one message per
    missing element; on no dataset at all does it return [False], so the
    'not compatible' branch of [_replace_model] is never taken. *)
Theorem is_the_data_basic_affirmative (c : VarNames) (ds : Dataset) (tag : pyval)
    (w : world) :
  attrs ds !! "tag" = Some tag →
  is_the_data_basic c ds w = (Ok true, add_written (basic_report c tag ds) w)
  ∧ (∀ ds' w', fst (is_the_data_basic c ds' w') ≠ Ok false)
  ∧ (∀ t obj w',
       fst (_replace_model c t obj w') ≠
       Raise (ValueError "The provided input dataset is not compatible.")).
Proof.
  intros Htag. split; [| split].
  - by apply is_the_data_basic_tagged.
  - apply is_the_data_basic_never_false.
  - apply _replace_model_compatible.
Qed.

Lemma is_the_data_basic_affirmative_witness :
  in_data_variables "T" ds_pascal = false
  ∧ fst (is_the_data_basic VARNAMES ds_pascal w_fresh) = Ok true.
Proof.
  split; [vm_compute; reflexivity |].
  rewrite (proj1 (is_the_data_basic_affirmative VARNAMES ds_pascal (VStr "run0")
                    w_fresh eq_refl)).
  reflexivity.
Defined.

(** C1 (where the code departs from it): the claim has [is_the_data_basic]
    return [True] on every dataset, so that the basic check never stops an
    insertion.  On the empty dataset, which has no ['tag'] attribute, the
    code raises [KeyError] while it builds its first message, nothing is
    written, and [_replace_model] stops with that error. *)
Theorem is_the_data_basic_untagged_empty :
  is_the_data_basic VARNAMES ds_empty w_fresh = (Raise (KeyError "tag"), w_fresh)
  ∧ fst (is_the_data_basic VARNAMES ds_empty w_fresh) ≠ Ok true
  ∧ _replace_model VARNAMES (VStr "run1") (ObjDataset 0) w_fresh
    = (Raise (KeyError "tag"), w_fresh).
Proof.
  assert (is_the_data_basic VARNAMES ds_empty w_fresh
          = (Raise (KeyError "tag"), w_fresh)) as H.
  { by rewrite is_the_data_basic_untagged. }
  split; [exact H | split].
  - by rewrite H.
  - by apply _replace_model_unchecked.
Qed.

(** C10: on a dataset without ['tag'] attribute that misses a required
    coordinate, field or scalar attribute, [is_the_data_basic] raises (the
    [KeyError] of [dataset.attrs['tag']]) before anything is written, and so
    does [_replace_model], which validates before it stamps the tag. *)
Theorem is_the_data_basic_untagged_incomplete (c : VarNames) (ds : Dataset) (w : world) :
  attrs ds !! "tag" = None →
  misses_nothing c ds = false →
  is_the_data_basic c ds w = (Raise (KeyError "tag"), w)
  ∧ (∀ t r w', heap w' r = ds →
       _replace_model c (VStr t) (ObjDataset r) w' = (Raise (KeyError "tag"), w')).
Proof.
  intros Htag Hmiss. split.
  - by rewrite is_the_data_basic_untagged, Hmiss.
  - intros t r w' Hr. apply _replace_model_unchecked; by rewrite Hr.
Qed.

Lemma is_the_data_basic_untagged_incomplete_witness :
  is_the_data_basic VARNAMES ds_empty w_one = (Raise (KeyError "tag"), w_one)
  ∧ _replace_model VARNAMES (VStr "run1") (ObjDataset 0) w_one
    = (Raise (KeyError "tag"), w_one).
Proof.
  destruct (is_the_data_basic_untagged_incomplete VARNAMES ds_empty w_one) as [H1 H2].
  - reflexivity.
  - vm_compute. reflexivity.
  - split; [exact H1 | apply H2; reflexivity].
Defined.

(** ** The cloud check *)

(** On every dataset that carries a ['tag'] attribute, [is_the_data_cloudy]
    runs the basic check first and then returns [False] if one of ['ClAb'],
    ['ClDr'], ['ClKs'], ['ClKa'] is not among the data variables and [True]
    if all four are. *)
Theorem is_the_data_cloudy_tagged_result (c : VarNames) (ds : Dataset) (tag : pyval)
    (w : world) :
  attrs ds !! "tag" = Some tag →
  is_the_data_cloudy c ds w
  = (Ok (forallb (fun k => in_data_variables k ds) ["ClAb"; "ClDr"; "ClKs"; "ClKa"]),
     add_written (basic_report c tag ds ++ cloud_report tag ds) w).
Proof. intros Htag. by rewrite (is_the_data_cloudy_tagged c ds tag w Htag). Qed.

Lemma is_the_data_cloudy_tagged_result_witness :
  fst (is_the_data_cloudy VARNAMES ds_cloudy w_fresh) = Ok true
  ∧ fst (is_the_data_cloudy VARNAMES ds_tagged w_fresh) = Ok false.
Proof.
  split.
  - rewrite (is_the_data_cloudy_tagged_result VARNAMES ds_cloudy (VStr "run0")
               w_fresh eq_refl).
    vm_compute. reflexivity.
  - rewrite (is_the_data_cloudy_tagged_result VARNAMES ds_tagged (VStr "run0")
               w_fresh eq_refl).
    vm_compute. reflexivity.
Defined.

(** C9 (where the code departs from it): the claim has [is_the_data_cloudy]
    return [False] when a cloud field is missing.  On a complete basic
    dataset without cloud fields and without ['tag'] attribute the code
    raises [KeyError] while it builds the warning for ['ClAb']. *)
Theorem is_the_data_cloudy_untagged_no_clouds :
  has_cloud_fields ds_basic = false
  ∧ is_the_data_cloudy VARNAMES ds_basic w_fresh = (Raise (KeyError "tag"), w_fresh).
Proof.
  split; [vm_compute; reflexivity |].
  by rewrite is_the_data_cloudy_untagged.
Qed.

(** ** Insertion: the guards *)

(** C5: for every tag that is not a string and every dataset (or other
    object), [_replace_model] fails at once; the world, and with it the
    tag-to-dataset mapping and its size, is exactly as before. *)
Theorem _replace_model_tag_not_str (c : VarNames) (tag : pyval) (ds : pyobj) (w : world) :
  is_str tag = false →
  ∃ w', _replace_model c tag ds w
        = (Raise (ValueError "The provided tag needs to be a string."), w')
        ∧ w' = w
        ∧ _models (gcmt w') = _models (gcmt w)
        ∧ size (_models (gcmt w')) = size (_models (gcmt w)).
Proof.
  intros Hstr. exists w. by rewrite (_replace_model_non_str c tag ds w Hstr).
Qed.

Lemma _replace_model_tag_not_str_witness :
  ∃ w', _replace_model VARNAMES (VNum 3) (ObjDataset 2) w_one
        = (Raise (ValueError "The provided tag needs to be a string."), w')
        ∧ w' = w_one
        ∧ _models (gcmt w') = _models (gcmt w_one)
        ∧ size (_models (gcmt w')) = size (_models (gcmt w_one)).
Proof.
  apply (_replace_model_tag_not_str VARNAMES (VNum 3) (ObjDataset 2) w_one).
  reflexivity.
Defined.

(** For every string tag and every dataset on which the basic check
    returns, if the [p_unit] or the [time_unit] attribute differs from the
    configured unit then [_replace_model] raises [NotImplementedError]; the
    mapping and the datasets are as before. *)
Theorem _replace_model_units_differ (c : VarNames) (t : string) (r : ref) (w : world) :
  fst (is_the_data_basic c (heap w r) w) = Ok true →
  units_differ (heap w r) (gcmt w) = true →
  ∃ w', _replace_model c (VStr t) (ObjDataset r) w = (Raise unit_conversion_needed, w')
        ∧ gcmt w' = gcmt w
        ∧ heap w' = heap w.
Proof.
  intros Hbasic Hunits.
  destruct (is_the_data_basic_frame c (heap w r) w) as [es Hes].
  destruct (is_the_data_basic c (heap w r) w) as [res w1] eqn:Hrun.
  simpl in Hbasic, Hes. subst res w1.
  rewrite (_replace_model_checked c t r es w Hrun).
  unfold units_differ in Hunits. exists (add_written es w).
  destruct (eq_str (attrs_get (heap w r) "p_unit") (p_unit (gcmt w))); [| done].
  destruct (eq_str (attrs_get (heap w r) "time_unit") (time_unit (gcmt w))); done.
Qed.

Lemma _replace_model_units_differ_witness :
  ∃ w', _replace_model VARNAMES (VStr "run1") (ObjDataset 3) w_one
        = (Raise unit_conversion_needed, w')
        ∧ gcmt w' = gcmt w_one
        ∧ heap w' = heap w_one.
Proof.
  apply (_replace_model_units_differ VARNAMES "run1" 3%nat w_one).
  - vm_compute. reflexivity.
  - vm_compute. reflexivity.
Defined.

(** C4 (where the code departs from it): the claim has [_replace_model]
    raise [NotImplementedError] for every dataset whose units differ from
    the configured ones.  The empty dataset has no [p_unit] attribute, which
    differs from ['bar'], yet inserting it raises the [KeyError] of the
    basic check; the mapping is unchanged. *)
Theorem _replace_model_units_differ_untagged_empty :
  units_differ (heap w_fresh 0%nat) (gcmt w_fresh) = true
  ∧ fst (_replace_model VARNAMES (VStr "run1") (ObjDataset 0) w_fresh)
    = Raise (KeyError "tag")
  ∧ fst (_replace_model VARNAMES (VStr "run1") (ObjDataset 0) w_fresh)
    ≠ Raise unit_conversion_needed
  ∧ _models (gcmt (snd (_replace_model VARNAMES (VStr "run1") (ObjDataset 0) w_fresh)))
    = _models (gcmt w_fresh).
Proof.
  assert (_replace_model VARNAMES (VStr "run1") (ObjDataset 0) w_fresh
          = (Raise (KeyError "tag"), w_fresh)) as H.
  { by apply _replace_model_unchecked. }
  rewrite H. split; [vm_compute; reflexivity | repeat split; done].
Qed.

(** ** Insertion followed by selection *)

Lemma __getitem___stored (t : string) (r : ref) (w : world) :
  _models (gcmt w) !! t = Some r →
  __getitem__ (VStr t) w = (Ok (Some r), w).
Proof.
  intros Hlook. unfold __getitem__. rewrite bind_run. unfold get_world at 1.
  cbv beta iota. rewrite bind_run. unfold in_models_keys. cbn [mret M_ret].
  rewrite Hlook.
  rewrite bool_decide_eq_true_2 by eauto. cbn [negb is_str].
  unfold get_one_model. rewrite bind_run. unfold get_world. cbv beta iota.
  unfold collection_get_one_model. by rewrite Hlook.
Qed.

(** C2: for every string tag [t] and every dataset [d] (held at [r]) that
    passes the basic check and whose [p_unit] and [time_unit] attributes are
    the configured units, [__setitem__(t, d)] succeeds and [__getitem__(t)]
    then returns [d] itself: the same object, with the variables,
    coordinates and attributes it had, except that its ['tag'] attribute is
    now [t]. *)
Theorem setitem_then_getitem (c : VarNames) (t : string) (r : ref) (w : world) :
  fst (is_the_data_basic c (heap w r) w) = Ok true →
  eq_str (attrs_get (heap w r) "p_unit") (p_unit (gcmt w)) = true →
  eq_str (attrs_get (heap w r) "time_unit") (time_unit (gcmt w)) = true →
  ∃ w1, __setitem__ c (VStr t) (ObjDataset r) w = (Ok tt, w1)
        ∧ __getitem__ (VStr t) w1 = (Ok (Some r), w1)
        ∧ variables (heap w1 r) = variables (heap w r)
        ∧ coord_names (heap w1 r) = coord_names (heap w r)
        ∧ attrs (heap w1 r) = <["tag" := VStr t]> (attrs (heap w r))
        ∧ attrs_get (heap w1 r) "tag" = VStr t.
Proof.
  intros Hbasic Hp Htime.
  destruct (is_the_data_basic_frame c (heap w r) w) as [es Hes].
  destruct (is_the_data_basic c (heap w r) w) as [res w'] eqn:Hrun.
  simpl in Hbasic, Hes. subst res w'.
  exists (inserted t r es w). unfold __setitem__.
  rewrite (_replace_model_checked c t r es w Hrun), Hp, Htime. cbn [negb].
  split; [reflexivity |]. split.
  { apply __getitem___stored. cbn. apply lookup_insert_eq. }
  cbn [inserted heap]. rewrite fn_lookup_insert. cbn [stamped variables coord_names attrs].
  repeat split. unfold attrs_get, stamped. cbn [attrs]. by rewrite lookup_insert_eq.
Qed.

Lemma setitem_then_getitem_witness :
  ∃ w1, __setitem__ VARNAMES (VStr "run1") (ObjDataset 1) w_fresh = (Ok tt, w1)
        ∧ __getitem__ (VStr "run1") w1 = (Ok (Some 1%nat), w1)
        ∧ variables (heap w1 1%nat) = variables ds_basic
        ∧ coord_names (heap w1 1%nat) = coord_names ds_basic
        ∧ attrs (heap w1 1%nat) = <["tag" := VStr "run1"]> (attrs ds_basic)
        ∧ attrs_get (heap w1 1%nat) "tag" = VStr "run1".
Proof.
  apply (setitem_then_getitem VARNAMES "run1" 1%nat w_fresh).
  - vm_compute. reflexivity.
  - vm_compute. reflexivity.
  - vm_compute. reflexivity.
Defined.

(** ** Sums over dimensions *)

Lemma sum_upto_ext (n : nat) (f g : nat → R) :
  (∀ j, f j = g j) → sum_upto n f = sum_upto n g.
Proof. intros Hfg. induction n as [|n IH]; simpl; [done | by rewrite IH, Hfg]. Qed.

Lemma sum_upto_scale (n : nat) (f : nat → R) (k : R) :
  sum_upto n (fun j => f j * k) = sum_upto n f * k.
Proof. induction n as [|n IH]; simpl; [lra | rewrite IH; lra]. Qed.

Lemma dim_size_cons (d d' : string) (n : nat) (l : list (string * nat)) (f : index → R) :
  dim_size d (mkDataArray ((d', n) :: l) f) =
  if String.eqb d' d then Some n else dim_size d (mkDataArray l f).
Proof. unfold dim_size. simpl. by destruct (String.eqb d' d). Qed.

Lemma dim_size_filter_ne (d d' : string) (a : DataArray) (f : index → R) :
  d ≠ d' →
  dim_size d' (mkDataArray (List.filter (fun p => negb (String.eqb (fst p) d)) (dims a)) f)
  = dim_size d' a.
Proof.
  intros Hne. destruct a as [l g]. simpl. induction l as [|[e n] l IH].
  - reflexivity.
  - simpl. destruct (String.eqb_spec e d) as [->|He]; simpl.
    + rewrite IH, (dim_size_cons d' d n l g).
      by destruct (String.eqb_spec d d').
    + rewrite !dim_size_cons, IH. reflexivity.
Qed.

Lemma dim_size_broadcast_l (op : R → R → R) (a b : DataArray) (d : string) (n : nat) :
  dim_size d a = Some n → dim_size d (broadcast op a b) = Some n.
Proof.
  destruct a as [l g]. unfold broadcast. cbn [dims data].
  generalize (fun i : index => op (g i) (data b i)) as h.
  generalize (List.filter (fun p => negb (has_dim (fst p) (mkDataArray l g))) (dims b)) as l'.
  intros l' h. induction l as [|[e k] l IH]; [done |].
  rewrite <- app_comm_cons, !dim_size_cons.
  destruct (String.eqb e d); [done | exact IH].
Qed.

(** Summing over two distinct dimensions the array has. *)
Lemma arr_sum_two (a : DataArray) (d1 d2 : string) (n m : nat) (w : world) :
  d1 ≠ d2 →
  dim_size d1 a = Some n →
  dim_size d2 a = Some m →
  ∃ l, arr_sum a [d1; d2] w =
       (Ok (mkDataArray l
              (fun i => sum_upto m (fun y =>
                        sum_upto n (fun x => data a (at_dim d1 x (at_dim d2 y i)))))),
        w).
Proof.
  intros Hne H1 H2. unfold arr_sum. cbn [for_each].
  rewrite bind_run. unfold sum_dim at 1. rewrite H1. cbn [mret M_ret].
  rewrite bind_run. unfold sum_dim at 1.
  rewrite (dim_size_filter_ne d1 d2 a _ Hne), H2. cbn [mret M_ret dims data].
  eauto.
Qed.

(** ** The horizontal average *)

Lemma collection_get_one_model_world (models : gmap string ref) (tag : pyval)
    (b : bool) (w w' : world) :
  collection_get_one_model models tag b w' =
  (fst (collection_get_one_model models tag b w), w').
Proof.
  unfold collection_get_one_model. destruct tag as [|t|x|]; [| | done | done].
  - destruct (map_to_list models) as [|[t r] [|p l]]; by destruct b.
  - destruct (models !! t); by destruct b.
Qed.

Lemma get_one_model_written (tag : pyval) (b : bool) (es : list status) (w : world) :
  get_one_model tag b (add_written es w) =
  (fst (get_one_model tag b w), add_written es w).
Proof.
  unfold get_one_model. rewrite !bind_run. unfold get_world. cbv beta iota.
  rewrite add_written_gcmt.
  by rewrite (collection_get_one_model_world _ _ _ w (add_written es w)).
Qed.

Lemma write_tag_selectable (tag : pyval) (o : option ref) (w : world) :
  fst (get_one_model tag true w) = Ok o →
  ∃ es, ∀ w', write_tag tag w' = (Ok tt, add_written es w').
Proof.
  destruct tag as [|t|x|].
  - intros _. exists []. intros w'. by rewrite add_written_nil.
  - intros _. by exists [mkStatus "INFO" [Lit ("Tag: " ++ t)]].
  - done.
  - done.
Qed.

Lemma write_output_run (var_key_out : option string) (w : world) :
  ∃ es, ∀ w', write_output var_key_out w' = (Ok tt, add_written es w').
Proof.
  destruct var_key_out as [k|].
  - by exists [mkStatus "INFO" [Lit ("Output variable: " ++ k)]].
  - exists []. intros w'. by rewrite add_written_nil.
Qed.

Lemma m_add_horizontal_average_run (c : VarNames) (var_key : string)
    (var_key_out : option string) (area_key : string) (tag : pyval) (w : world)
    (r : ref) (area field : DataArray) (n m : nat) :
  c_lon c ≠ c_lat c →
  fst (get_one_model tag true w) = Ok (Some r) →
  variables (heap w r) !! area_key = Some area →
  variables (heap w r) !! var_key = Some field →
  dim_size (c_lon c) area = Some n →
  dim_size (c_lat c) area = Some m →
  ∃ l l' es,
    let avg :=
      arr_div
        (mkDataArray l
           (sum_lon_lat (c_lon c) (c_lat c) n m (fun i => data area i * data field i)))
        (mkDataArray l' (sum_lon_lat (c_lon c) (c_lat c) n m (data area))) in
    m_add_horizontal_average c var_key var_key_out area_key tag w
    = (Ok avg, reduced var_key_out r avg es w).
Proof.
  intros Hne Hsel Harea Hfield Hn Hm.
  destruct (write_tag_selectable tag (Some r) w Hsel) as [es1 Htag].
  destruct (write_output_run var_key_out w) as [es2 Hout].
  unfold m_add_horizontal_average.
  rewrite bind_run. cbn [write_status]. rewrite bind_run, Htag.
  rewrite bind_run. cbn [write_status]. rewrite bind_run, Hout.
  rewrite bind_run. cbn [write_status].
  rewrite !add_written_app.
  match goal with |- context [add_written ?l w] => set (es := l) end.
  rewrite !bind_run, get_one_model_written, Hsel. cbn [selected mret M_ret].
  rewrite bind_run. unfold deref at 1. cbv beta iota. rewrite add_written_heap.
  unfold getitem. rewrite Harea, Hfield.
  rewrite bind_run. cbn [mret M_ret]. rewrite bind_run. cbn [mret M_ret].
  destruct (arr_sum_two (arr_mul area field) (c_lon c) (c_lat c) n m
              (add_written es w) Hne) as [l Hl].
  { by apply dim_size_broadcast_l. }
  { by apply dim_size_broadcast_l. }
  destruct (arr_sum_two area (c_lon c) (c_lat c) n m (add_written es w) Hne Hn Hm)
    as [l' Hl'].
  rewrite bind_run, Hl. rewrite bind_run. cbn [mret M_ret].
  rewrite bind_run, Hl'.
  exists l, l', es. cbv zeta. unfold sum_lon_lat.
  destruct var_key_out as [k|]; reflexivity.
Qed.

(** ** The dimensions of arrays *)

Lemma dim_size_app (d : string) (l1 l2 : list (string * nat)) (f : index → R) :
  dim_size d (mkDataArray (l1 ++ l2) f) =
  match dim_size d (mkDataArray l1 f) with
  | Some n => Some n
  | None => dim_size d (mkDataArray l2 f)
  end.
Proof.
  induction l1 as [|[e k] l1 IH]; [done |].
  rewrite <- app_comm_cons, !dim_size_cons. by destruct (String.eqb e d).
Qed.

Lemma dim_size_filter_eq (d : string) (l : list (string * nat)) (f : index → R) :
  dim_size d (mkDataArray (List.filter (fun p => negb (String.eqb (fst p) d)) l) f) = None.
Proof.
  induction l as [|[e k] l IH]; [done |]. cbn [List.filter fst].
  destruct (String.eqb e d) eqn:He; cbn [negb]; [exact IH |].
  by rewrite dim_size_cons, He.
Qed.

Lemma dim_size_filter_new (d : string) (a : DataArray) (l : list (string * nat))
    (f : index → R) :
  dim_size d (mkDataArray (List.filter (fun p => negb (has_dim (fst p) a)) l) f) =
  if has_dim d a then None else dim_size d (mkDataArray l f).
Proof.
  induction l as [|[e k] l IH]; [by destruct (has_dim d a) |]. cbn [List.filter fst].
  destruct (has_dim e a) eqn:He; cbn [negb].
  - rewrite IH, dim_size_cons. destruct (String.eqb_spec e d) as [->|Hne]; [| done].
    by rewrite He.
  - rewrite !dim_size_cons, IH. destruct (String.eqb_spec e d) as [->|Hne]; [| done].
    by rewrite He.
Qed.

Lemma dim_size_filter_other (d d' : string) (l : list (string * nat)) (f : index → R) :
  d ≠ d' →
  dim_size d' (mkDataArray (List.filter (fun p => negb (String.eqb (fst p) d)) l) f)
  = dim_size d' (mkDataArray l f).
Proof. intros Hne. exact (dim_size_filter_ne d d' (mkDataArray l f) f Hne). Qed.

Lemma dim_size_drop2 (d d1 d2 : string) (l : list (string * nat)) (f : index → R) :
  dim_size d
    (mkDataArray
       (List.filter (fun p => negb (String.eqb (fst p) d2))
          (List.filter (fun p => negb (String.eqb (fst p) d1)) l)) f) =
  if String.eqb d d1 || String.eqb d d2 then None else dim_size d (mkDataArray l f).
Proof.
  destruct (String.eqb_spec d d2) as [->|H2].
  - rewrite orb_true_r. apply dim_size_filter_eq.
  - rewrite orb_false_r.
    rewrite (dim_size_filter_other d2 d) by done.
    destruct (String.eqb_spec d d1) as [->|H1]; [apply dim_size_filter_eq |].
    by rewrite (dim_size_filter_other d1 d).
Qed.

Lemma dim_size_ignores_data (d : string) (l : list (string * nat)) (f g : index → R) :
  dim_size d (mkDataArray l f) = dim_size d (mkDataArray l g).
Proof. reflexivity. Qed.

Lemma has_dim_None (d : string) (a : DataArray) :
  has_dim d a = false ↔ dim_size d a = None.
Proof.
  unfold has_dim. destruct (dim_size d a) as [n|].
  - rewrite bool_decide_eq_true_2 by eauto. split; done.
  - rewrite bool_decide_eq_false_2 by (intros [? ?]; done). split; done.
Qed.





(** ** What the reductions leave alone *)

Create HintDb only_writes.

Lemma only_writes_ret {A : Type} (a : A) : only_writes (mret a).
Proof. intros w. exists []. by rewrite add_written_nil. Qed.

Lemma only_writes_raise {A : Type} (e : exn) : only_writes (@raise A e).
Proof. intros w. exists []. by rewrite add_written_nil. Qed.

Lemma only_writes_write_status (lvl : string) (msg : list part) :
  only_writes (write_status lvl msg).
Proof. intros w. by eexists. Qed.

Lemma only_writes_bind {A B : Type} (m : M A) (f : A → M B) :
  only_writes m → (∀ a, only_writes (f a)) → only_writes (m ≫= f).
Proof.
  intros Hm Hf w. rewrite bind_run. destruct (Hm w) as [es Hes].
  destruct (m w) as [[a|e] w1]; simpl in Hes; subst w1.
  - destruct (Hf a (add_written es w)) as [es' Hes'].
    exists (es ++ es')%list. by rewrite Hes', add_written_app.
  - by exists es.
Qed.

Lemma only_writes_write_tag (tag : pyval) : only_writes (write_tag tag).
Proof.
  destruct tag; [apply only_writes_ret | apply only_writes_write_status
                | apply only_writes_raise | apply only_writes_raise].
Qed.

Lemma only_writes_write_output (o : option string) : only_writes (write_output o).
Proof. destruct o; [apply only_writes_write_status | apply only_writes_ret]. Qed.

Lemma only_writes_get_one_model (tag : pyval) (b : bool) :
  only_writes (get_one_model tag b).
Proof.
  intros w. exists []. rewrite add_written_nil. unfold get_one_model.
  rewrite bind_run. unfold get_world. cbv beta iota.
  by rewrite (collection_get_one_model_world _ _ _ w w).
Qed.

Lemma only_writes_selected (o : option ref) : only_writes (selected o).
Proof. destruct o; [apply only_writes_ret | apply only_writes_raise]. Qed.

Lemma only_writes_deref (r : ref) : only_writes (deref r).
Proof. intros w. exists []. by rewrite add_written_nil. Qed.

Lemma only_writes_getitem (ds : Dataset) (key : string) : only_writes (getitem ds key).
Proof.
  unfold getitem. repeat case_match;
    first [apply only_writes_ret | apply only_writes_raise].
Qed.

Lemma only_writes_sum_dim (a : DataArray) (d : string) : only_writes (sum_dim a d).
Proof.
  unfold sum_dim. destruct (dim_size d a);
    [apply only_writes_ret | apply only_writes_raise].
Qed.

Lemma only_writes_arr_sum (a : DataArray) (ds : list string) : only_writes (arr_sum a ds).
Proof.
  unfold arr_sum. revert a. induction ds as [|d ds IH]; intros a; cbn [for_each].
  - apply only_writes_ret.
  - apply only_writes_bind; [apply only_writes_sum_dim | exact IH].
Qed.

Lemma only_writes_cumulative_integrate (ds : Dataset) (a : DataArray) (coord : string) :
  only_writes (cumulative_integrate ds a coord).
Proof.
  unfold cumulative_integrate.
  destruct (coordinate_of ds a coord) as [[[d x]|]|];
    [apply only_writes_ret | apply only_writes_raise | apply only_writes_raise].
Qed.

Lemma only_writes_getattr (ds : Dataset) (name : string) : only_writes (getattr ds name).
Proof.
  unfold getattr. repeat case_match;
    first [apply only_writes_ret | apply only_writes_raise].
Qed.

Lemma only_writes_as_array (o : operand) : only_writes (as_array o).
Proof.
  unfold as_array. repeat case_match;
    first [apply only_writes_ret | apply only_writes_raise].
Qed.

#[export] Hint Resolve only_writes_ret only_writes_raise only_writes_write_status
  only_writes_write_tag only_writes_write_output only_writes_get_one_model
  only_writes_selected only_writes_deref only_writes_getitem only_writes_arr_sum
  only_writes_cumulative_integrate only_writes_getattr only_writes_as_array
  : only_writes.
#[export] Hint Extern 2 (only_writes (_ ≫= _)) =>
  apply only_writes_bind; [| intros ?] : only_writes.

(** One step of a computation whose first part only writes. *)
Lemma bind_only_writes {A B : Type} (m : M A) (f : A → M B) (w : world) :
  only_writes m →
  ∃ es, (m ≫= f) w =
        match fst (m w) with
        | Ok a => f a (add_written es w)
        | Raise e => (Raise e, add_written es w)
        end.
Proof.
  intros Hm. destruct (Hm w) as [es Hes]. exists es. rewrite bind_run.
  destruct (m w) as [[a|e] w1]; simpl in *; by subst w1.
Qed.

Lemma get_one_model_selected (tag : pyval) (r : ref) (es : list status) (w : world) :
  fst ((get_one_model tag true ≫= selected) (add_written es w)) = Ok r →
  fst (get_one_model tag true w) = Ok (Some r).
Proof.
  rewrite bind_run, get_one_model_written.
  destruct (fst (get_one_model tag true w)) as [[r'|]|e]; simpl; congruence.
Qed.

Lemma ds_update_stored (k : string) (a : DataArray) (r : ref) (es : list status)
    (w : world) :
  stored_in k a r w (snd (ds_update r k a (add_written es w))).
Proof.
  unfold ds_update. rewrite bind_run. unfold deref, set_heap. cbn.
  unfold stored_in. cbn. rewrite fn_lookup_insert. cbn.
  repeat split.
  - apply lookup_insert_eq.
  - intros k' Hne. by apply lookup_insert_ne.
  - intros r' Hne. by apply fn_lookup_insert_ne.
Qed.

Ltac step :=
  match goal with
  | |- context [(?m ≫= ?f) ?w] =>
      let es := fresh "es" in
      let Hs := fresh "Hs" in
      destruct (bind_only_writes m f w ltac:(eauto with only_writes)) as [es Hs];
      rewrite Hs; clear Hs;
      destruct (fst (m w)) eqn:?; rewrite ?add_written_app
  end.

Lemma m_add_horizontal_average_frame (c : VarNames) (var_key : string)
    (var_key_out : option string) (area_key : string) (tag : pyval) (w : world) :
  let out := m_add_horizontal_average c var_key var_key_out area_key tag w in
  match var_key_out, fst out with
  | Some k, Ok avg =>
      ∃ r, fst (get_one_model tag true w) = Ok (Some r) ∧ stored_in k avg r w (snd out)
  | _, _ => untouched w (snd out)
  end.
Proof.
  cbv zeta. unfold m_add_horizontal_average.
  rewrite (bind_run (write_status _ _)). cbn [write_status].
  do 11 (step; [| by destruct var_key_out]).
  match goal with
  | H : fst ((get_one_model _ _ ≫= selected) _) = Ok ?r |- _ =>
      apply get_one_model_selected in H; rename H into Hsel
  end.
  match goal with
  | H : fst (deref _ _) = Ok ?d |- _ => unfold deref in H; cbn in H; inversion H; subst d
  end.
  destruct var_key_out as [k|].
  - rewrite bind_run.
    match goal with |- context [ds_update ?r k ?a (add_written ?es w)] =>
      pose proof (ds_update_stored k a r es w) as Hst;
      destruct (ds_update r k a (add_written es w)) as [[[]|e] w'] eqn:Hup
    end.
    + cbn in Hst |- *. eauto.
    + unfold ds_update in Hup. rewrite bind_run in Hup. discriminate.
  - rewrite bind_run. cbn. done.
Qed.

Lemma m_add_meridional_overturning_frame (ds : ref) (v_data : string)
    (var_key_out : option string) (tag : pyval) (w : world) :
  let out := m_add_meridional_overturning ds v_data var_key_out tag w in
  match var_key_out, fst out with
  | Some k, Ok psi => stored_in k psi ds w (snd out)
  | _, _ => untouched w (snd out)
  end.
Proof.
  cbv zeta. unfold m_add_meridional_overturning.
  rewrite (bind_run (write_status _ _)). cbn [write_status].
  do 8 (step; [| by destruct var_key_out]).
  destruct var_key_out as [k|].
  - rewrite bind_run.
    match goal with |- context [ds_update ds k ?a (add_written ?es w)] =>
      pose proof (ds_update_stored k a ds es w) as Hst;
      destruct (ds_update ds k a (add_written es w)) as [[[]|e] w'] eqn:Hup
    end.
    + cbn in Hst |- *. exact Hst.
    + unfold ds_update in Hup. rewrite bind_run in Hup. discriminate.
  - rewrite bind_run. cbn. done.
Qed.

(** C8: for both reductions, with [var_key_out=None] the call leaves every
    dataset (and the registry) unchanged; with an output name the result is
    stored in the target dataset under that name, and its other variables,
    its coordinates and its attributes are unchanged.  A call that raises
    stores nothing. *)
Theorem reductions_store_only_the_result (c : VarNames) (var_key v_data : string)
    (var_key_out : option string) (area_key : string) (tag : pyval) (ds : ref)
    (w : world) (res1 res2 : result DataArray) (w1 w2 : world) :
  m_add_horizontal_average c var_key var_key_out area_key tag w = (res1, w1) →
  m_add_meridional_overturning ds v_data var_key_out tag w = (res2, w2) →
  match var_key_out with
  | None => untouched w w1 ∧ untouched w w2
  | Some k =>
      match res1 with
      | Ok avg =>
          ∃ r, fst (get_one_model tag true w) = Ok (Some r) ∧ stored_in k avg r w w1
      | Raise _ => untouched w w1
      end
      ∧ match res2 with
        | Ok psi => stored_in k psi ds w w2
        | Raise _ => untouched w w2
        end
  end.
Proof.
  intros H1 H2.
  pose proof (m_add_horizontal_average_frame c var_key var_key_out area_key tag w) as F1.
  pose proof (m_add_meridional_overturning_frame ds v_data var_key_out tag w) as F2.
  cbv zeta in F1, F2. rewrite H1 in F1. rewrite H2 in F2. cbn [fst snd] in F1, F2.
  destruct var_key_out as [k|]; [| done]. split.
  - by destruct res1.
  - by destruct res2.
Qed.

(** ** The meridional overturning streamfunction *)

Lemma getattr_scalar_attr (ds : Dataset) (name : string) (x : R) (w : world) :
  scalar_attr ds name x →
  (getattr ds name ≫= as_array) w = (Ok (scalar x), w).
Proof.
  intros (Hvar & Hdim & Hattr). rewrite bind_run. unfold getattr.
  by rewrite Hvar, Hdim, Hattr.
Qed.

Lemma getattr_variable (ds : Dataset) (name : string) (a : DataArray) (w : world) :
  variables ds !! name = Some a →
  (getattr ds name ≫= as_array) w = (Ok a, w).
Proof. intros Hvar. rewrite bind_run. unfold getattr. by rewrite Hvar. Qed.

Lemma resolves_to_variable (ds : Dataset) (name : string) (a : DataArray) :
  variables ds !! name = Some a → resolves_to ds name a.
Proof. intros Hvar w. by apply getattr_variable. Qed.

Lemma resolves_to_scalar_attr (ds : Dataset) (name : string) (x : R) :
  scalar_attr ds name x → resolves_to ds name (scalar x).
Proof. intros Hattr w. by apply getattr_scalar_attr. Qed.

(** The result of the reduction in terms of the arrays that [ds.lat],
    [ds.R_p] and [ds.g] are. *)
Lemma m_add_meridional_overturning_operands (ds : ref) (v_data : string)
    (var_key_out : option string) (tag : pyval) (w : world)
    (v lat R_p g : DataArray) (d : string) (z : nat → R) :
  tag = VNone ∨ is_str tag = true →
  variables (heap w ds) !! v_data = Some v →
  coordinate_of (heap w ds) v "Z" = Some (Some (d, z)) →
  resolves_to (heap w ds) "lat" lat →
  resolves_to (heap w ds) "R_p" R_p →
  resolves_to (heap w ds) "g" g →
  ∃ l es,
    let psi :=
      mkDataArray l
        (fun i =>
           let integral := cumulative_trapezoid z (fun j => data v (at_dim d j i)) (i d) in
           2 * PI * cos (data lat i / 180 * PI) * data R_p i / data g i
           * (if eq_str (attrs_get (heap w ds) "p_unit") "bar"
              then integral / 1.0e5 else integral)) in
    m_add_meridional_overturning ds v_data var_key_out tag w
    = (Ok psi, reduced var_key_out ds psi es w).
Proof.
  intros Htag Hv Hz Hlat HR Hg.
  assert (∃ es1, ∀ w', write_tag tag w' = (Ok tt, add_written es1 w')) as [es1 Hwt].
  { destruct Htag as [->|Hs].
    - exists []. intros w'. by rewrite add_written_nil.
    - destruct tag as [|t| |]; try discriminate.
      by exists [mkStatus "INFO" [Lit ("Tag: " ++ t)]]. }
  destruct (write_output_run var_key_out w) as [es2 Hout].
  unfold m_add_meridional_overturning.
  rewrite bind_run. cbn [write_status]. rewrite bind_run, Hwt.
  rewrite bind_run, Hout. rewrite !add_written_app.
  match goal with |- context [add_written ?l w] => set (es := l) end.
  rewrite bind_run. unfold deref at 1. cbv beta iota. rewrite add_written_heap.
  unfold getitem. rewrite Hv. rewrite bind_run. cbn [mret M_ret].
  unfold cumulative_integrate. rewrite Hz. rewrite bind_run. cbn [mret M_ret].
  rewrite bind_run, Hlat.
  rewrite bind_run, HR.
  rewrite bind_run, Hg.
  cbv zeta.
  destruct (eq_str (attrs_get (heap w ds) "p_unit") "bar");
    eexists _, es; destruct var_key_out as [k|]; reflexivity.
Qed.

Lemma m_add_meridional_overturning_run (ds : ref) (v_data : string)
    (var_key_out : option string) (tag : pyval) (w : world)
    (v lat : DataArray) (d : string) (z : nat → R) (R_p g : R) :
  tag = VNone ∨ is_str tag = true →
  variables (heap w ds) !! v_data = Some v →
  coordinate_of (heap w ds) v "Z" = Some (Some (d, z)) →
  variables (heap w ds) !! "lat" = Some lat →
  scalar_attr (heap w ds) "R_p" R_p →
  scalar_attr (heap w ds) "g" g →
  ∃ l es,
    let psi :=
      mkDataArray l
        (fun i =>
           let integral := cumulative_trapezoid z (fun j => data v (at_dim d j i)) (i d) in
           2 * PI * cos (data lat i / 180 * PI) * R_p / g
           * (if eq_str (attrs_get (heap w ds) "p_unit") "bar"
              then integral / 1.0e5 else integral)) in
    m_add_meridional_overturning ds v_data var_key_out tag w
    = (Ok psi, reduced var_key_out ds psi es w).
Proof.
  intros Htag Hv Hz Hlat HR Hg.
  exact (m_add_meridional_overturning_operands ds v_data var_key_out tag w v lat
           (scalar R_p) (scalar g) d z Htag Hv Hz
           (resolves_to_variable _ _ _ Hlat)
           (resolves_to_scalar_attr _ _ _ HR)
           (resolves_to_scalar_attr _ _ _ Hg)).
Qed.





Lemma reductions_store_only_the_result_witness :
  ∃ avg psi w1 w2,
    m_add_horizontal_average VARNAMES "T" (Some "out") "area_c" VNone w_one = (Ok avg, w1)
    ∧ m_add_meridional_overturning 2%nat "V" (Some "out") VNone w_one = (Ok psi, w2)
    ∧ stored_in "out" avg 2%nat w_one w1
    ∧ stored_in "out" psi 2%nat w_one w2.
Proof.
  destruct (m_add_horizontal_average_run VARNAMES "T" (Some "out") "area_c" VNone w_one
              2%nat area_c (uniform 300) 2%nat 2%nat)
    as (l1 & l1' & es1 & H1); try (vm_compute; reflexivity); [discriminate |].
  destruct (m_add_meridional_overturning_run 2%nat "V" (Some "out") VNone w_one wind
              (axis "lat" 2) "Z" z_levels 70000000 10)
    as (l2 & es2 & H2);
    try (vm_compute; reflexivity); [by left | by repeat split | by repeat split |].
  cbv zeta in H1, H2.
  pose proof (reductions_store_only_the_result VARNAMES "T" "V" (Some "out") "area_c"
                VNone 2%nat w_one _ _ _ _ H1 H2) as [(r & Hr & Hst1) Hst2].
  assert (r = 2%nat) as -> by (vm_compute in Hr; congruence).
  eexists _, _, _, _.
  split; [exact H1 |]. split; [exact H2 |]. split; [exact Hst1 | exact Hst2].
Defined.

(** * Further properties of the code *)

(** ** The basic check: what it reports *)

Lemma complaints_none (tag : pyval) (l : list (bool * string)) :
  forallb fst l = true → flat_map (complaint tag) l = [].
Proof.
  induction l as [|[b what] l IH]; [done |]. cbn [forallb fst flat_map].
  intros [-> Hl]%andb_true_iff. by rewrite IH.
Qed.

Lemma complaints_missing (tag : pyval) (l : list (bool * string)) :
  flat_map (complaint tag) l =
  (fun what => mkStatus "E-INFO" (not_basic_message tag what))
    <$> (snd <$> List.filter (fun chk => negb (fst chk)) l).
Proof.
  induction l as [|[b what] l IH]; [done |]. cbn [flat_map List.filter fst].
  rewrite IH. by destruct b.
Qed.

Lemma is_the_data_basic_passes (c : VarNames) (ds : Dataset) (w : world) :
  fst (is_the_data_basic c ds w) = Ok true ↔
  is_Some (attrs ds !! "tag") ∨ misses_nothing c ds = true.
Proof.
  destruct (attrs ds !! "tag") as [tag|] eqn:Htag.
  - rewrite (is_the_data_basic_tagged c ds tag w Htag). split; [eauto | done].
  - rewrite (is_the_data_basic_untagged c ds w Htag).
    destruct (misses_nothing c ds); split; try done; [eauto |].
    intros [[? ?]|?]; done.
Qed.

Lemma is_the_data_basic_silent (c : VarNames) (ds : Dataset) (w : world) :
  misses_nothing c ds = true →
  is_the_data_basic c ds w = (Ok true, w).
Proof.
  intros Hall. destruct (attrs ds !! "tag") as [tag|] eqn:Htag.
  - rewrite (is_the_data_basic_tagged c ds tag w Htag). unfold basic_report.
    rewrite misses_nothing_checks, Hall, complaints_none
      by (by rewrite misses_nothing_checks).
    by rewrite add_written_nil.
  - by rewrite (is_the_data_basic_untagged c ds w Htag), Hall.
Qed.

(** A dataset that misses nothing passes the basic check in silence, with
    or without ['tag'] attribute. *)
Theorem is_the_data_basic_complete (c : VarNames) (ds : Dataset) (w : world) :
  misses_nothing c ds = true →
  is_the_data_basic c ds w = (Ok true, w).
Proof. apply is_the_data_basic_silent. Qed.

Lemma is_the_data_basic_complete_witness :
  is_the_data_basic VARNAMES ds_basic w_one = (Ok true, w_one)
  ∧ is_the_data_basic VARNAMES ds_cloudy w_one = (Ok true, w_one).
Proof.
  split.
  - apply (is_the_data_basic_complete VARNAMES ds_basic w_one). vm_compute. reflexivity.
  - apply (is_the_data_basic_complete VARNAMES ds_cloudy w_one). vm_compute. reflexivity.
Defined.

(** On a tagged dataset that misses something the basic check does not stop
    at the first missing element: it writes one E-INFO message for every
    missing element, in the order of its tests, and then one ERROR message. *)
Theorem is_the_data_basic_reports_each (c : VarNames) (ds : Dataset) (tag : pyval)
    (w : world) :
  attrs ds !! "tag" = Some tag →
  misses_nothing c ds = false →
  missing_basic c ds ≠ []
  ∧ written (snd (is_the_data_basic c ds w)) =
    (written w
     ++ ((fun what => mkStatus "E-INFO" (not_basic_message tag what))
           <$> missing_basic c ds)
     ++ [mkStatus "ERROR"
           [Lit "The data does not fulfill the requirements for a basic dataset."]])%list.
Proof.
  intros Htag Hmiss. rewrite <- misses_nothing_checks in Hmiss. split.
  - unfold missing_basic. intros Hnone.
    apply fmap_nil_inv in Hnone.
    assert (∀ l : list (bool * string),
              List.filter (fun chk => negb (fst chk)) l = [] → forallb fst l = true) as Hall.
    { induction l as [|[b what] l IH]; [done |]. cbn [List.filter forallb fst].
      destruct b; [exact IH | done]. }
    rewrite (Hall _ Hnone) in Hmiss. done.
  - rewrite (is_the_data_basic_tagged c ds tag w Htag). unfold basic_report.
    rewrite Hmiss, complaints_missing. reflexivity.
Qed.

Lemma is_the_data_basic_reports_each_witness :
  missing_basic VARNAMES ds_pascal = ["T (temperature)"]
  ∧ length (written (snd (is_the_data_basic VARNAMES ds_pascal w_fresh))) = 2%nat.
Proof.
  destruct (is_the_data_basic_reports_each VARNAMES ds_pascal (VStr "run0") w_fresh)
    as [_ Hw].
  - reflexivity.
  - vm_compute. reflexivity.
  - split; [vm_compute; reflexivity |]. rewrite Hw. vm_compute. reflexivity.
Defined.

(** ** Insertion: when it succeeds and what it touches *)

Lemma units_differ_false (ds : Dataset) (self : GCMT) :
  units_differ ds self = false ↔
  eq_str (attrs_get ds "p_unit") (p_unit self) = true
  ∧ eq_str (attrs_get ds "time_unit") (time_unit self) = true.
Proof.
  unfold units_differ.
  destruct (eq_str (attrs_get ds "p_unit") (p_unit self)),
           (eq_str (attrs_get ds "time_unit") (time_unit self)); simpl;
    split; try done; intros [? ?]; done.
Qed.

(** The outcome of [_replace_model] in every case. *)
Lemma _replace_model_cases (c : VarNames) (tag : pyval) (ds : pyobj) (w : world) :
  (∃ e, _replace_model c tag ds w = (Raise e, w))
  ∨ (∃ e es, _replace_model c tag ds w = (Raise e, add_written es w))
  ∨ (∃ t r es,
       tag = VStr t ∧ ds = ObjDataset r
       ∧ fst (is_the_data_basic c (heap w r) w) = Ok true
       ∧ units_differ (heap w r) (gcmt w) = false
       ∧ _replace_model c tag ds w = (Ok tt, inserted t r es w)).
Proof.
  destruct (is_str tag) eqn:Hstr.
  2: { left. eexists. by apply _replace_model_non_str. }
  destruct tag as [|t| |]; try discriminate. destruct ds as [r|v].
  2: { left. by eexists. }
  destruct (is_the_data_basic c (heap w r) w) as [[b|e] w1] eqn:Hbasic.
  - pose proof (is_the_data_basic_never_false c (heap w r) w) as Hnf.
    pose proof (is_the_data_basic_frame c (heap w r) w) as [es Hes].
    rewrite Hbasic in Hnf, Hes. simpl in Hnf, Hes. subst w1.
    destruct b; [| done].
    rewrite (_replace_model_checked c t r es w Hbasic). unfold units_differ.
    destruct (eq_str (attrs_get (heap w r) "p_unit") (p_unit (gcmt w))) eqn:Hp;
      [| right; left; by eexists _, _].
    destruct (eq_str (attrs_get (heap w r) "time_unit") (time_unit (gcmt w))) eqn:Ht;
      [| right; left; by eexists _, _].
    right. right. exists t, r, es. rewrite Hbasic, Hp, Ht. by repeat split.
  - pose proof (is_the_data_basic_raises c (heap w r) w e) as Hr.
    rewrite Hbasic in Hr. specialize (Hr eq_refl). inversion Hr; subst.
    left. exists (KeyError "tag"). unfold _replace_model. cbn [is_str negb].
    rewrite bind_run. unfold deref at 1. cbv beta iota.
    by rewrite bind_run, Hbasic.
Qed.

(** An insertion that raises, for whatever reason, has changed neither the
    registry nor any dataset: all guards run before the tag is stamped. *)
Theorem _replace_model_failure_untouched (c : VarNames) (tag : pyval) (ds : pyobj)
    (w w' : world) (e : exn) :
  _replace_model c tag ds w = (Raise e, w') →
  gcmt w' = gcmt w ∧ heap w' = heap w.
Proof.
  intros Hrun.
  destruct (_replace_model_cases c tag ds w)
    as [[e' H]|[(e' & es & H)|(t & r & es & _ & _ & _ & _ & H)]];
    rewrite H in Hrun; simplify_eq; by split.
Qed.

Lemma _replace_model_failure_untouched_witness :
  gcmt (snd (_replace_model VARNAMES (VStr "run1") (ObjDataset 3) w_one)) = gcmt w_one
  ∧ heap (snd (_replace_model VARNAMES (VStr "run1") (ObjDataset 3) w_one)) = heap w_one.
Proof.
  apply (_replace_model_failure_untouched VARNAMES (VStr "run1") (ObjDataset 3) w_one
           _ unit_conversion_needed).
  vm_compute. reflexivity.
Defined.

(** [_replace_model] succeeds exactly when the tag is a string, the value is
    a dataset that either carries a ['tag'] attribute or misses nothing, and
    both unit attributes are the configured ones. *)
Theorem _replace_model_succeeds_iff (c : VarNames) (tag : pyval) (ds : pyobj) (w : world) :
  fst (_replace_model c tag ds w) = Ok tt ↔
  ∃ t r, tag = VStr t ∧ ds = ObjDataset r
         ∧ (is_Some (attrs (heap w r) !! "tag") ∨ misses_nothing c (heap w r) = true)
         ∧ eq_str (attrs_get (heap w r) "p_unit") (p_unit (gcmt w)) = true
         ∧ eq_str (attrs_get (heap w r) "time_unit") (time_unit (gcmt w)) = true.
Proof.
  split.
  - intros Hok.
    destruct (_replace_model_cases c tag ds w)
      as [[e H]|[(e & es & H)|(t & r & es & -> & -> & Hb & Hu & H)]];
      [by rewrite H in Hok | by rewrite H in Hok |].
    exists t, r. apply is_the_data_basic_passes in Hb.
    apply units_differ_false in Hu as [Hp Ht]. done.
  - intros (t & r & -> & -> & Hb & Hp & Ht).
    apply (is_the_data_basic_passes c (heap w r) w) in Hb.
    destruct (is_the_data_basic_frame c (heap w r) w) as [es Hes].
    destruct (is_the_data_basic c (heap w r) w) as [res w1] eqn:Hrun.
    simpl in Hb, Hes. subst res w1.
    by rewrite (_replace_model_checked c t r es w Hrun), Hp, Ht.
Qed.

Lemma _replace_model_inserted (c : VarNames) (t : string) (r : ref) (w w' : world) :
  _replace_model c (VStr t) (ObjDataset r) w = (Ok tt, w') →
  ∃ es, w' = inserted t r es w.
Proof.
  intros Hrun.
  destruct (_replace_model_cases c (VStr t) (ObjDataset r) w)
    as [[e H]|[(e & es & H)|(t' & r' & es & Ht & Hr & _ & _ & H)]];
    rewrite H in Hrun; simplify_eq. by exists es.
Qed.

(** Inserting a dataset that misses nothing and has the configured units. *)
Lemma _replace_model_complete (c : VarNames) (t : string) (r : ref) (w : world) :
  misses_nothing c (heap w r) = true →
  units_differ (heap w r) (gcmt w) = false →
  _replace_model c (VStr t) (ObjDataset r) w = (Ok tt, inserted t r [] w).
Proof.
  intros Hall [Hp Ht]%units_differ_false.
  assert (is_the_data_basic c (heap w r) w = (Ok true, add_written [] w)) as Hbasic.
  { by rewrite add_written_nil, is_the_data_basic_silent. }
  by rewrite (_replace_model_checked c t r [] w Hbasic), Hp, Ht.
Qed.

Lemma __getitem___run (tag : pyval) (w : world) :
  __getitem__ tag w =
  (match tag with
   | VStr t =>
       match _models (gcmt w) !! t with
       | Some ds => Ok (Some ds)
       | None => Raise (ValueError "The provided tag does not exist in the collection")
       end
   | VUnhashable => Raise TypeError
   | VNone | VNum _ =>
       Raise (ValueError "The provided tag does not exist in the collection")
   end, w).
Proof.
  destruct tag as [|t|x|]; try reflexivity.
  destruct (_models (gcmt w) !! t) as [r|] eqn:Hlook.
  - by apply __getitem___stored.
  - unfold __getitem__. rewrite bind_run. unfold get_world at 1. cbv beta iota.
    rewrite bind_run. unfold in_models_keys. cbn [mret M_ret]. rewrite Hlook.
    rewrite bool_decide_eq_false_2 by (intros [? ?]; done). reflexivity.
Qed.

(** The outcome of [__getitem__] in every case: the stored dataset for a
    string that is a key; [TypeError] for a key that cannot be hashed, which
    the membership test raises; and otherwise, also for [None] and for a
    number, the error that the tag does not exist, so that the error 'key
    needs to be a string.' is never raised.  The world is as before. *)
Theorem __getitem___outcome (tag : pyval) (w : world) :
  __getitem__ tag w =
  (match tag with
   | VStr t =>
       match _models (gcmt w) !! t with
       | Some ds => Ok (Some ds)
       | None => Raise (ValueError "The provided tag does not exist in the collection")
       end
   | VUnhashable => Raise TypeError
   | VNone | VNum _ =>
       Raise (ValueError "The provided tag does not exist in the collection")
   end, w)
  ∧ fst (__getitem__ tag w) ≠ Raise (ValueError "key needs to be a string.").
Proof.
  rewrite __getitem___run. split; [reflexivity |].
  destruct tag as [|t|x|]; cbn [fst]; try done.
  by destruct (_models (gcmt w) !! t).
Qed.

(** A successful insertion under [t] leaves every other entry of the
    registry, every other dataset and the configured units as they were,
    and the number of entries grows by one exactly when [t] was not a key. *)
Theorem _replace_model_frame (c : VarNames) (t : string) (r : ref) (w w' : world) :
  _replace_model c (VStr t) (ObjDataset r) w = (Ok tt, w') →
  (∀ t', t' ≠ t → fst (__getitem__ (VStr t') w') = fst (__getitem__ (VStr t') w))
  ∧ (∀ r', r' ≠ r → heap w' r' = heap w r')
  ∧ p_unit (gcmt w') = p_unit (gcmt w)
  ∧ time_unit (gcmt w') = time_unit (gcmt w)
  ∧ fst (__len__ w') =
    Ok (if bool_decide (is_Some (_models (gcmt w) !! t))
        then size (_models (gcmt w)) else S (size (_models (gcmt w)))).
Proof.
  intros Hrun. destruct (_replace_model_inserted c t r w w' Hrun) as [es ->].
  repeat split.
  - intros t' Hne. rewrite !__getitem___run. cbn [fst inserted gcmt _models].
    by rewrite lookup_insert_ne.
  - intros r' Hne. cbn [inserted heap]. by rewrite fn_lookup_insert_ne.
  - unfold __len__. rewrite bind_run. cbn. f_equal. rewrite map_size_insert.
    case_bool_decide as Hin.
    + destruct Hin as [x Hx]. by rewrite Hx.
    + destruct (_models (gcmt w) !! t) eqn:Hx; [| done]. exfalso. eauto.
Qed.

Lemma _replace_model_frame_witness :
  ∃ w', _replace_model VARNAMES (VStr "run1") (ObjDataset 1) w_one = (Ok tt, w')
        ∧ fst (__getitem__ (VStr "run0") w') = Ok (Some 2%nat)
        ∧ heap w' 2%nat = ds_tagged
        ∧ fst (__len__ w') = Ok 2%nat.
Proof.
  assert (_replace_model VARNAMES (VStr "run1") (ObjDataset 1) w_one
          = (Ok tt, inserted "run1" 1%nat [] w_one)) as Hrun.
  { apply _replace_model_complete; vm_compute; reflexivity. }
  exists (inserted "run1" 1%nat [] w_one). split; [exact Hrun |].
  destruct (_replace_model_frame VARNAMES "run1" 1%nat w_one _ Hrun)
    as (Hget & Hheap & _ & _ & Hlen).
  split; [| split].
  - rewrite Hget by discriminate. vm_compute. reflexivity.
  - rewrite Hheap by discriminate. reflexivity.
  - rewrite Hlen. vm_compute. reflexivity.
Defined.

(** Inserting under a tag that is already a key replaces the entry: the
    selection then returns the dataset inserted last, and the number of
    entries is the one after the first insertion. *)
Theorem _replace_model_overwrites (c : VarNames) (t : string) (r1 r2 : ref)
    (w w1 w2 : world) :
  _replace_model c (VStr t) (ObjDataset r1) w = (Ok tt, w1) →
  _replace_model c (VStr t) (ObjDataset r2) w1 = (Ok tt, w2) →
  __getitem__ (VStr t) w2 = (Ok (Some r2), w2)
  ∧ fst (__len__ w2) = fst (__len__ w1).
Proof.
  intros H1 H2.
  destruct (_replace_model_inserted c t r1 w w1 H1) as [es1 ->].
  destruct (_replace_model_inserted c t r2 _ w2 H2) as [es2 ->].
  split.
  - rewrite __getitem___run. cbn [inserted gcmt _models].
    by rewrite lookup_insert_eq.
  - unfold __len__. rewrite !bind_run. cbn. f_equal.
    apply map_size_insert_Some. rewrite lookup_insert_eq. eauto.
Qed.

Lemma _replace_model_overwrites_witness :
  ∃ w1 w2,
    _replace_model VARNAMES (VStr "run1") (ObjDataset 1) w_fresh = (Ok tt, w1)
    ∧ _replace_model VARNAMES (VStr "run1") (ObjDataset 4) w1 = (Ok tt, w2)
    ∧ __getitem__ (VStr "run1") w2 = (Ok (Some 4%nat), w2)
    ∧ fst (__len__ w2) = fst (__len__ w1).
Proof.
  assert (_replace_model VARNAMES (VStr "run1") (ObjDataset 1) w_fresh
          = (Ok tt, inserted "run1" 1%nat [] w_fresh)) as H1.
  { apply _replace_model_complete; vm_compute; reflexivity. }
  assert (_replace_model VARNAMES (VStr "run1") (ObjDataset 4)
            (inserted "run1" 1%nat [] w_fresh)
          = (Ok tt, inserted "run1" 4%nat [] (inserted "run1" 1%nat [] w_fresh))) as H2.
  { apply _replace_model_complete; vm_compute; reflexivity. }
  eexists _, _. split; [exact H1 |]. split; [exact H2 |].
  exact (_replace_model_overwrites VARNAMES "run1" 1%nat 4%nat w_fresh _ _ H1 H2).
Defined.

(** ** The invariant of the registry and the sharing of datasets *)

(** A successful insertion keeps the invariant that every stored dataset
    carries the tag it is stored under, provided the inserted object is not
    already stored under another tag. *)
Theorem _replace_model_tags_match (c : VarNames) (t : string) (r : ref) (w w' : world) :
  tags_match w →
  (∀ t', t' ≠ t → _models (gcmt w) !! t' ≠ Some r) →
  _replace_model c (VStr t) (ObjDataset r) w = (Ok tt, w') →
  tags_match w'.
Proof.
  intros Hinv Hfresh Hrun.
  destruct (_replace_model_inserted c t r w w' Hrun) as [es ->].
  intros t' r'. cbn [inserted gcmt _models heap].
  destruct (decide (t' = t)) as [->|Hne].
  - rewrite lookup_insert_eq. intros [= <-]. rewrite fn_lookup_insert.
    cbn [stamped attrs]. by rewrite lookup_insert_eq.
  - rewrite lookup_insert_ne by done. intros Hlook.
    destruct (decide (r' = r)) as [->|Hr].
    + by destruct (Hfresh t' Hne).
    + rewrite fn_lookup_insert_ne by done. by apply Hinv.
Qed.

Lemma tags_match_w_one : tags_match w_one.
Proof.
  intros t r Hlook. cbn [w_one gcmt _models] in Hlook.
  apply lookup_singleton_Some in Hlook as [<- <-]. vm_compute. reflexivity.
Qed.

Lemma _replace_model_tags_match_witness :
  tags_match (inserted "run1" 1%nat [] w_one).
Proof.
  apply (_replace_model_tags_match VARNAMES "run1" 1%nat w_one).
  - exact tags_match_w_one.
  - intros t' Hne Hlook. cbn [w_one gcmt _models] in Hlook.
    apply lookup_singleton_Some in Hlook as [_ Hr]. discriminate.
  - apply _replace_model_complete; vm_compute; reflexivity.
Defined.

(** Datasets are stored by reference: inserting one object under a second,
    different tag restamps it, so the entry under the first tag then holds a
    dataset that carries the second tag, and the invariant is lost. *)
Theorem _replace_model_same_object_twice (c : VarNames) (t t' : string) (r : ref)
    (w w1 w2 : world) :
  t ≠ t' →
  _replace_model c (VStr t) (ObjDataset r) w = (Ok tt, w1) →
  _replace_model c (VStr t') (ObjDataset r) w1 = (Ok tt, w2) →
  __getitem__ (VStr t) w2 = (Ok (Some r), w2)
  ∧ __getitem__ (VStr t') w2 = (Ok (Some r), w2)
  ∧ attrs (heap w2 r) !! "tag" = Some (VStr t')
  ∧ ¬ tags_match w2.
Proof.
  intros Hne H1 H2.
  destruct (_replace_model_inserted c t r w w1 H1) as [es1 ->].
  destruct (_replace_model_inserted c t' r _ w2 H2) as [es2 ->].
  assert (_models (gcmt (inserted t' r es2 (inserted t r es1 w))) !! t = Some r) as Ht.
  { cbn [inserted gcmt _models]. by rewrite lookup_insert_ne, lookup_insert_eq. }
  assert (attrs (heap (inserted t' r es2 (inserted t r es1 w)) r) !! "tag"
          = Some (VStr t')) as Htag.
  { cbn [inserted heap]. rewrite fn_lookup_insert. cbn [stamped attrs].
    by rewrite lookup_insert_eq. }
  repeat split.
  - rewrite __getitem___run. by rewrite Ht.
  - rewrite __getitem___run. cbn [inserted gcmt _models].
    by rewrite lookup_insert_eq.
  - exact Htag.
  - intros Hinv. specialize (Hinv t r Ht). rewrite Htag in Hinv. congruence.
Qed.

Lemma _replace_model_same_object_twice_witness :
  ∃ w2,
    __getitem__ (VStr "a") w2 = (Ok (Some 1%nat), w2)
    ∧ __getitem__ (VStr "b") w2 = (Ok (Some 1%nat), w2)
    ∧ attrs (heap w2 1%nat) !! "tag" = Some (VStr "b")
    ∧ ¬ tags_match w2.
Proof.
  eexists.
  apply (_replace_model_same_object_twice VARNAMES "a" "b" 1%nat w_fresh
           (inserted "a" 1%nat [] w_fresh)).
  - discriminate.
  - apply _replace_model_complete; vm_compute; reflexivity.
  - apply _replace_model_complete; vm_compute; reflexivity.
Defined.

(** ** [get], [__len__] and [__bool__] *)

Lemma get_one_model_str (t : string) (b : bool) (w : world) :
  get_one_model (VStr t) b w =
  (match _models (gcmt w) !! t with
   | Some r => Ok (Some r)
   | None => if b then Raise NotFound else Ok None
   end, w).
Proof.
  unfold get_one_model. rewrite bind_run. unfold get_world. cbv beta iota.
  unfold collection_get_one_model.
  destruct (_models (gcmt w) !! t); [done | by destruct b].
Qed.

Lemma get_run (t : string) (default : pyval) (w : world) :
  get (VStr t) default w =
  (Ok match _models (gcmt w) !! t with
      | Some ds => if dataset_bool (heap w ds) then ObjDataset ds else ObjOther default
      | None => ObjOther default
      end, w).
Proof.
  unfold get. rewrite bind_run, get_one_model_str.
  destruct (_models (gcmt w) !! t) as [r|]; [| done].
  rewrite bind_run. unfold deref. cbv beta iota.
  by destruct (dataset_bool (heap w r)).
Qed.

(** [get] with a string tag never raises and never changes the world.  It
    returns the default for a tag that is no key, and also for a stored
    dataset without data variables, which is falsy; otherwise it returns the
    stored dataset. *)
Theorem get_outcome (t : string) (default : pyval) (w : world) :
  get (VStr t) default w =
  (Ok match _models (gcmt w) !! t with
      | Some ds => if dataset_bool (heap w ds) then ObjDataset ds else ObjOther default
      | None => ObjOther default
      end, w).
Proof. apply get_run. Qed.

(** A dataset without data variables, one that holds only attributes or
    coordinates, can be inserted when it is tagged; it is then found by
    [__getitem__] but not by [get], which returns the default. *)
Theorem get_misses_dataset_without_variables (c : VarNames) (t : string) (r : ref)
    (default : pyval) (w w' : world) :
  dataset_bool (heap w r) = false →
  _replace_model c (VStr t) (ObjDataset r) w = (Ok tt, w') →
  __getitem__ (VStr t) w' = (Ok (Some r), w')
  ∧ get (VStr t) default w' = (Ok (ObjOther default), w').
Proof.
  intros Hvars Hrun. destruct (_replace_model_inserted c t r w w' Hrun) as [es ->].
  assert (_models (gcmt (inserted t r es w)) !! t = Some r) as Ht.
  { cbn [inserted gcmt _models]. by rewrite lookup_insert_eq. }
  split.
  - by rewrite __getitem___run, Ht.
  - rewrite get_run, Ht. cbn [inserted heap]. rewrite fn_lookup_insert.
    unfold dataset_bool in *. cbn [stamped variables coord_names]. by rewrite Hvars.
Qed.

Lemma get_misses_dataset_without_variables_witness :
  let w' := inserted "bare" 0%nat (basic_report VARNAMES (VStr "run0") ds_bare) w_bare in
  __getitem__ (VStr "bare") w' = (Ok (Some 0%nat), w')
  ∧ get (VStr "bare") VNone w' = (Ok (ObjOther VNone), w').
Proof.
  apply (get_misses_dataset_without_variables VARNAMES "bare" 0%nat VNone w_bare).
  - vm_compute. reflexivity.
  - rewrite (_replace_model_checked VARNAMES "bare" 0%nat
               (basic_report VARNAMES (VStr "run0") ds_bare) w_bare)
      by (by apply is_the_data_basic_tagged).
    assert (eq_str (attrs_get (heap w_bare 0%nat) "p_unit") (p_unit (gcmt w_bare)) = true)
      as -> by (vm_compute; reflexivity).
    assert (eq_str (attrs_get (heap w_bare 0%nat) "time_unit") (time_unit (gcmt w_bare))
            = true) as -> by (vm_compute; reflexivity).
    reflexivity.
Defined.

(** A session is truthy exactly when it has an entry: when its length is
    not zero, and when some tag can be selected. *)
Theorem __bool___iff (w : world) :
  (fst (__bool__ w) = Ok true ↔ fst (__len__ w) ≠ Ok 0%nat)
  ∧ (fst (__bool__ w) = Ok true ↔
     ∃ t ds, __getitem__ (VStr t) w = (Ok (Some ds), w)).
Proof.
  unfold __bool__, __len__. rewrite !bind_run. cbn.
  assert (size (_models (gcmt w)) ≠ 0%nat ↔
          ∃ t ds, __getitem__ (VStr t) w = (Ok (Some ds), w)) as Hsel.
  { rewrite map_size_ne_0_lookup. split.
    - intros (t & r & Hlook). exists t, r. by rewrite __getitem___run, Hlook.
    - intros (t & r & Hget). exists t. rewrite __getitem___run in Hget.
      destruct (_models (gcmt w) !! t); [eauto | done]. }
  rewrite <- Hsel.
  destruct (size (_models (gcmt w))) as [|n]; cbn; split; split; try done;
    intros H; by destruct H.
Qed.

(** ** The reductions and the registry *)

Lemma add_meridional_overturning_run (v_data : string) (var_key_out : option string)
    (tag : pyval) (w : world) :
  add_meridional_overturning v_data var_key_out tag w =
  match fst (get_one_model tag true w) with
  | Ok (Some ds) => m_add_meridional_overturning ds v_data var_key_out tag w
  | Ok None => (Raise TypeError, w)
  | Raise e => (Raise e, w)
  end.
Proof.
  unfold add_meridional_overturning. rewrite !bind_run.
  pose proof (get_one_model_written tag true [] w) as Hg.
  rewrite add_written_nil in Hg. rewrite Hg.
  by destruct (fst (get_one_model tag true w)) as [[r|]|e].
Qed.

Lemma get_one_model_stored (t : string) (r : ref) (w : world) :
  fst (get_one_model (VStr t) true w) = Ok (Some r) →
  _models (gcmt w) !! t = Some r.
Proof.
  rewrite get_one_model_str. destruct (_models (gcmt w) !! t); simpl; congruence.
Qed.

(** The reductions work on the stored object itself.  Each for itself:
    after [add_horizontal_average] has returned for a tag and an output
    name, the dataset that [__getitem__] selects for the tag holds the
    returned array under that name; and the same is true of
    [add_meridional_overturning]. *)
Theorem reductions_result_in_registry (c : VarNames) (var_key v_data k area_key t : string)
    (w : world) :
  (∀ avg w1,
     add_horizontal_average c var_key (Some k) area_key (VStr t) w = (Ok avg, w1) →
     ∃ ds, __getitem__ (VStr t) w1 = (Ok (Some ds), w1)
           ∧ getitem (heap w1 ds) k w1 = (Ok avg, w1))
  ∧ (∀ psi w2,
       add_meridional_overturning v_data (Some k) (VStr t) w = (Ok psi, w2) →
       ∃ ds, __getitem__ (VStr t) w2 = (Ok (Some ds), w2)
             ∧ getitem (heap w2 ds) k w2 = (Ok psi, w2)).
Proof.
  split.
  - intros avg w1 H1. unfold add_horizontal_average in H1.
    pose proof (m_add_horizontal_average_frame c var_key (Some k) area_key (VStr t) w)
      as F1.
    cbv zeta in F1. rewrite H1 in F1. cbn [fst snd] in F1.
    destruct F1 as (r & Hsel & Hk & _ & _ & _ & _ & Hg).
    apply get_one_model_stored in Hsel. exists r.
    rewrite __getitem___run, Hg, Hsel. unfold getitem. by rewrite Hk.
  - intros psi w2 H2. rewrite add_meridional_overturning_run in H2.
    destruct (fst (get_one_model (VStr t) true w)) as [[r|]|e] eqn:Hsel;
      [| discriminate | discriminate].
    pose proof (m_add_meridional_overturning_frame r v_data (Some k) (VStr t) w) as F2.
    cbv zeta in F2. rewrite H2 in F2. cbn [fst snd] in F2.
    destruct F2 as (Hk2 & _ & _ & _ & _ & Hg2).
    apply get_one_model_stored in Hsel. exists r.
    rewrite __getitem___run, Hg2, Hsel. unfold getitem. by rewrite Hk2.
Qed.

(** Neither reduction, whatever it returns or raises, breaks the invariant
    that every stored dataset carries the tag it is stored under. *)
Theorem reductions_keep_tags_match (c : VarNames) (var_key v_data : string)
    (var_key_out : option string) (area_key : string) (tag : pyval) (w w1 w2 : world)
    (res1 res2 : result DataArray) :
  tags_match w →
  add_horizontal_average c var_key var_key_out area_key tag w = (res1, w1) →
  add_meridional_overturning v_data var_key_out tag w = (res2, w2) →
  tags_match w1 ∧ tags_match w2.
Proof.
  intros Hinv H1 H2.
  assert (∀ w', (∀ r, attrs (heap w' r) = attrs (heap w r)) → gcmt w' = gcmt w →
                tags_match w') as Hkeep.
  { intros w' Hattrs Hg t r. rewrite Hg, Hattrs. apply Hinv. }
  assert (∀ k a r w', stored_in k a r w w' → tags_match w') as Hstored.
  { intros k a r w' (_ & _ & _ & Hat & Hother & Hg). apply Hkeep; [| done].
    intros r'. destruct (decide (r' = r)) as [->|Hne]; [done |].
    by rewrite Hother. }
  assert (∀ w', untouched w w' → tags_match w') as Hsame.
  { intros w' [Hh Hg]. apply Hkeep; [| done]. intros r. by rewrite Hh. }
  split.
  - unfold add_horizontal_average in H1.
    pose proof (m_add_horizontal_average_frame c var_key var_key_out area_key tag w) as F.
    cbv zeta in F. rewrite H1 in F. cbn [fst snd] in F.
    destruct var_key_out as [k|]; [| by apply Hsame].
    destruct res1; [| by apply Hsame]. destruct F as (r & _ & F). eauto.
  - rewrite add_meridional_overturning_run in H2.
    destruct (fst (get_one_model tag true w)) as [[r|]|e];
      [| simplify_eq; by apply Hsame ..].
    pose proof (m_add_meridional_overturning_frame r v_data var_key_out tag w) as F.
    cbv zeta in F. rewrite H2 in F. cbn [fst snd] in F.
    destruct var_key_out as [k|]; [| by apply Hsame].
    destruct res2; [eauto | by apply Hsame].
Qed.

Lemma reductions_result_in_registry_witness :
  (∃ avg w1 ds,
     add_horizontal_average VARNAMES "T" (Some "out") "area_c" (VStr "run0") w_one
     = (Ok avg, w1)
     ∧ __getitem__ (VStr "run0") w1 = (Ok (Some ds), w1)
     ∧ getitem (heap w1 ds) "out" w1 = (Ok avg, w1))
  ∧ (∃ psi w2 ds,
       add_meridional_overturning "V" (Some "out") (VStr "run0") w_one = (Ok psi, w2)
       ∧ __getitem__ (VStr "run0") w2 = (Ok (Some ds), w2)
       ∧ getitem (heap w2 ds) "out" w2 = (Ok psi, w2)).
Proof.
  destruct (m_add_horizontal_average_run VARNAMES "T" (Some "out") "area_c"
              (VStr "run0") w_one 2%nat area_c (uniform 300) 2%nat 2%nat)
    as (l1 & l1' & es1 & H1); try (vm_compute; reflexivity); [discriminate |].
  destruct (m_add_meridional_overturning_run 2%nat "V" (Some "out") (VStr "run0")
              w_one wind (axis "lat" 2) "Z" z_levels 70000000 10)
    as (l2 & es2 & H2);
    try (vm_compute; reflexivity); [by right | by repeat split | by repeat split |].
  cbv zeta in H1, H2.
  assert (add_meridional_overturning "V" (Some "out") (VStr "run0") w_one
          = m_add_meridional_overturning 2%nat "V" (Some "out") (VStr "run0") w_one)
    as Hwrap.
  { rewrite add_meridional_overturning_run.
    replace (fst (get_one_model (VStr "run0") true w_one)) with (Ok (Some 2%nat) : result _)
      by (vm_compute; reflexivity).
    reflexivity. }
  rewrite <- Hwrap in H2.
  destruct (reductions_result_in_registry VARNAMES "T" "V" "out" "area_c" "run0" w_one)
    as [Havg Hpsi].
  destruct (Havg _ _ H1) as (ds & Hget1 & Hout1).
  destruct (Hpsi _ _ H2) as (ds' & Hget2 & Hout2).
  split.
  - eexists _, _, ds. split; [exact H1 |]. by split.
  - eexists _, _, ds'. split; [exact H2 |]. by split.
Defined.

Lemma reductions_keep_tags_match_witness :
  tags_match (snd (add_horizontal_average VARNAMES "T" (Some "out") "area_c" VNone w_one))
  ∧ tags_match (snd (add_meridional_overturning "V" (Some "out") VNone w_one)).
Proof.
  apply (reductions_keep_tags_match VARNAMES "T" "V" (Some "out") "area_c" VNone w_one
           _ _
           (fst (add_horizontal_average VARNAMES "T" (Some "out") "area_c" VNone w_one))
           (fst (add_meridional_overturning "V" (Some "out") VNone w_one))).
  - exact tags_match_w_one.
  - apply surjective_pairing.
  - apply surjective_pairing.
Defined.

(** ** The horizontal average as a weighted mean *)

Lemma sum_upto_le (n : nat) (f g : nat → R) :
  (∀ j, (j < n)%nat → f j <= g j) → sum_upto n f <= sum_upto n g.
Proof.
  intros Hfg. induction n as [|n IH]; simpl; [lra |].
  assert (sum_upto n f <= sum_upto n g) by (apply IH; intros j Hj; apply Hfg; lia).
  assert (f n <= g n) by (apply Hfg; lia). lra.
Qed.

Lemma sum_lon_lat_scale (lon lat : string) (n m : nat) (f : index → R) (k : R) (i : index) :
  sum_lon_lat lon lat n m (fun j => f j * k) i = sum_lon_lat lon lat n m f i * k.
Proof.
  unfold sum_lon_lat. rewrite <- sum_upto_scale. apply sum_upto_ext. intros y.
  by rewrite <- sum_upto_scale.
Qed.


Lemma sum_lon_lat_le (lon lat : string) (n m : nat) (f g : index → R) (i : index) :
  (∀ x y, (x < n)%nat → (y < m)%nat →
          f (at_dim lon x (at_dim lat y i)) <= g (at_dim lon x (at_dim lat y i))) →
  sum_lon_lat lon lat n m f i <= sum_lon_lat lon lat n m g i.
Proof.
  intros Hfg. unfold sum_lon_lat. apply sum_upto_le. intros y Hy.
  apply sum_upto_le. intros x Hx. by apply Hfg.
Qed.


(** At every remaining index, if the weights over the (lon, lat) positions
    are not negative and have a positive total, the horizontal average lies
    between any lower and upper bound of the field over these positions. *)
Theorem horizontal_average_between (c : VarNames) (var_key : string)
    (var_key_out : option string) (area_key : string) (tag : pyval) (w : world)
    (r : ref) (area field : DataArray) (n m : nat) (lo hi : R) (i : index) :
  c_lon c ≠ c_lat c →
  fst (get_one_model tag true w) = Ok (Some r) →
  variables (heap w r) !! area_key = Some area →
  variables (heap w r) !! var_key = Some field →
  dim_size (c_lon c) area = Some n →
  dim_size (c_lat c) area = Some m →
  (∀ x y, (x < n)%nat → (y < m)%nat →
          0 <= data area (at_dim (c_lon c) x (at_dim (c_lat c) y i))) →
  0 < sum_lon_lat (c_lon c) (c_lat c) n m (data area) i →
  (∀ x y, (x < n)%nat → (y < m)%nat →
          lo <= data field (at_dim (c_lon c) x (at_dim (c_lat c) y i)) <= hi) →
  ∃ avg w',
    m_add_horizontal_average c var_key var_key_out area_key tag w = (Ok avg, w')
    ∧ lo <= data avg i <= hi.
Proof.
  intros Hne Hsel Harea Hfield Hn Hm Hpos Htotal Hbound.
  destruct (m_add_horizontal_average_run c var_key var_key_out area_key tag w r
              area field n m Hne Hsel Harea Hfield Hn Hm) as (l & l' & es & Hrun).
  cbv zeta in Hrun. eexists _, _. split; [exact Hrun |].
  cbn [arr_div broadcast data].
  set (T := sum_lon_lat (c_lon c) (c_lat c) n m (data area) i) in *.
  set (N := sum_lon_lat (c_lon c) (c_lat c) n m (fun j => data area j * data field j) i).
  assert (T * lo <= N) as Hlo.
  { unfold T, N. rewrite <- sum_lon_lat_scale. apply sum_lon_lat_le.
    intros x y Hx Hy. specialize (Hpos x y Hx Hy). specialize (Hbound x y Hx Hy). nra. }
  assert (N <= T * hi) as Hhi.
  { unfold T, N. rewrite <- sum_lon_lat_scale. apply sum_lon_lat_le.
    intros x y Hx Hy. specialize (Hpos x y Hx Hy). specialize (Hbound x y Hx Hy). nra. }
  assert (0 < / T) as Hinv by (by apply Rinv_0_lt_compat).
  assert (T * / T = 1) as Hone by (apply Rinv_r; lra).
  unfold Rdiv. split.
  - replace lo with (T * lo * / T)
      by (rewrite (Rmult_comm T lo), Rmult_assoc, Hone; ring).
    apply Rmult_le_compat_r; lra.
  - replace hi with (T * hi * / T)
      by (rewrite (Rmult_comm T hi), Rmult_assoc, Hone; ring).
    apply Rmult_le_compat_r; lra.
Qed.

Lemma horizontal_average_between_witness :
  ∃ avg w',
    m_add_horizontal_average VARNAMES "V" None "area_c" VNone w_one = (Ok avg, w')
    ∧ 0 <= data avg (fun _ => O) <= 1.
Proof.
  apply (horizontal_average_between VARNAMES "V" None "area_c" VNone w_one
           2%nat area_c wind 2%nat 2%nat 0 1 (fun _ => O)).
  - discriminate.
  - vm_compute. reflexivity.
  - vm_compute. reflexivity.
  - vm_compute. reflexivity.
  - reflexivity.
  - reflexivity.
  - intros x y _ _. cbn. pose proof (pos_INR y). pose proof (pos_INR x). lra.
  - unfold sum_lon_lat. simpl. lra.
  - intros x y _ Hy. cbn. destruct y as [|[|y]]; [simpl; lra | simpl; lra | lia].
Defined.


(** ** The dimensions of the horizontal average *)

(** The horizontal average has neither the longitude nor the latitude
    dimension, and it has every other dimension of the weights and of the
    field, each with its length. *)
Theorem horizontal_average_dims (c : VarNames) (var_key : string)
    (var_key_out : option string) (area_key : string) (tag : pyval) (w : world)
    (r : ref) (area field : DataArray) (n m : nat) :
  c_lon c ≠ c_lat c →
  fst (get_one_model tag true w) = Ok (Some r) →
  variables (heap w r) !! area_key = Some area →
  variables (heap w r) !! var_key = Some field →
  dim_size (c_lon c) area = Some n →
  dim_size (c_lat c) area = Some m →
  ∃ avg w',
    m_add_horizontal_average c var_key var_key_out area_key tag w = (Ok avg, w')
    ∧ dim_size (c_lon c) avg = None
    ∧ dim_size (c_lat c) avg = None
    ∧ ∀ d, d ≠ c_lon c → d ≠ c_lat c →
           dim_size d avg =
           match dim_size d area with
           | Some k => Some k
           | None => dim_size d field
           end.
Proof.
  intros Hne Hsel Harea Hfield Hn Hm.
  destruct (write_tag_selectable tag (Some r) w Hsel) as [es1 Htag].
  destruct (write_output_run var_key_out w) as [es2 Hout].
  unfold m_add_horizontal_average.
  rewrite bind_run. cbn [write_status]. rewrite bind_run, Htag.
  rewrite bind_run. cbn [write_status]. rewrite bind_run, Hout.
  rewrite bind_run. cbn [write_status]. rewrite !add_written_app.
  match goal with |- context [add_written ?l w] => set (es := l) end.
  rewrite !bind_run, get_one_model_written, Hsel. cbn [selected mret M_ret].
  rewrite bind_run. unfold deref at 1. cbv beta iota. rewrite add_written_heap.
  unfold getitem. rewrite Harea, Hfield.
  rewrite bind_run. cbn [mret M_ret]. rewrite bind_run. cbn [mret M_ret].
  pose proof (dim_size_broadcast_l Rmult area field _ _ Hn) as Hn'.
  pose proof (dim_size_broadcast_l Rmult area field _ _ Hm) as Hm'.
  fold arr_mul in Hn', Hm'.
  unfold arr_sum. cbn [for_each]. rewrite !bind_run.
  unfold sum_dim at 1. rewrite Hn'. cbn [mret M_ret]. rewrite !bind_run.
  unfold sum_dim at 1. rewrite (dim_size_filter_ne _ _ _ _ Hne), Hm'.
  cbn [mret M_ret]. rewrite ?bind_run. rewrite ?Harea. cbn [mret M_ret].
  rewrite ?bind_run.
  unfold sum_dim at 1. rewrite Hn. cbn [mret M_ret]. rewrite !bind_run.
  unfold sum_dim at 1. rewrite (dim_size_filter_ne _ _ _ _ Hne), Hm.
  cbn [mret M_ret dims data].
  eexists. eexists (reduced var_key_out r _ es w). split.
  { destruct var_key_out as [k|]; reflexivity. }
  unfold arr_div, arr_mul, broadcast. cbn [dims data].
  assert (∀ d, String.eqb d d = true) as Hrefl by (intros d; apply String.eqb_refl).
  split; [| split].
  - rewrite dim_size_app, dim_size_filter_new, !dim_size_drop2, Hrefl.
    by destruct (has_dim _ _).
  - rewrite dim_size_app, dim_size_filter_new, !dim_size_drop2, Hrefl, orb_true_r.
    by destruct (has_dim _ _).
  - intros d Hlon Hlat.
    rewrite dim_size_app, dim_size_filter_new, !dim_size_drop2.
    rewrite (proj2 (String.eqb_neq d (c_lon c)) Hlon).
    rewrite (proj2 (String.eqb_neq d (c_lat c)) Hlat). cbn [orb].
    rewrite dim_size_app, dim_size_filter_new.
    change (dim_size d (mkDataArray (dims area) ?f)) with (dim_size d area).
    change (dim_size d (mkDataArray (dims field) ?f)) with (dim_size d field).
    destruct (dim_size d area) as [k|] eqn:Ha; [done |].
    apply has_dim_None in Ha. rewrite Ha.
    destruct (dim_size d field) as [k|] eqn:Hf; [done |].
    match goal with |- context [has_dim d ?a] => destruct (has_dim d a) end; done.
Qed.

Lemma horizontal_average_dims_witness :
  ∃ avg w',
    m_add_horizontal_average VARNAMES "T" None "area_c" VNone w_one = (Ok avg, w')
    ∧ dim_size "lon" avg = None
    ∧ dim_size "lat" avg = None
    ∧ dim_size "Z" avg = Some 2%nat
    ∧ dim_size "time" avg = Some 1%nat.
Proof.
  destruct (horizontal_average_dims VARNAMES "T" None "area_c" VNone w_one
              2%nat area_c (uniform 300) 2%nat 2%nat)
    as (avg & w' & Hrun & Hlon & Hlat & Hother);
    try (vm_compute; reflexivity); [discriminate |].
  exists avg, w'. split; [exact Hrun |]. split; [exact Hlon |]. split; [exact Hlat |].
  split.
  - by rewrite (Hother "Z").
  - by rewrite (Hother "time").
Defined.

(** ** The meridional overturning: linearity and failures *)




Lemma write_tag_ok (tag : pyval) :
  tag = VNone ∨ is_str tag = true →
  ∃ es, ∀ w, write_tag tag w = (Ok tt, add_written es w).
Proof.
  intros [->|Hs].
  - exists []. intros w. by rewrite add_written_nil.
  - destruct tag as [|t| |]; try discriminate.
    by exists [mkStatus "INFO" [Lit ("Tag: " ++ t)]].
Qed.

(** The level at which the cumulative integral starts carries no flux: with
    a gravity that is not zero, the streamfunction is zero wherever the
    position along the vertical dimension is the first one (in exact
    arithmetic). *)
Theorem meridional_overturning_first_level (ds : ref) (v_data : string)
    (var_key_out : option string) (tag : pyval) (w : world)
    (v lat : DataArray) (d : string) (z : nat → R) (R_p g : R) :
  tag = VNone ∨ is_str tag = true →
  variables (heap w ds) !! v_data = Some v →
  coordinate_of (heap w ds) v "Z" = Some (Some (d, z)) →
  variables (heap w ds) !! "lat" = Some lat →
  scalar_attr (heap w ds) "R_p" R_p →
  scalar_attr (heap w ds) "g" g →
  g ≠ 0 →
  ∃ psi w',
    m_add_meridional_overturning ds v_data var_key_out tag w = (Ok psi, w')
    ∧ ∀ i, i d = O → data psi i = 0.
Proof.
  intros Htag Hv Hz Hlat HR Hg _.
  destruct (m_add_meridional_overturning_run ds v_data var_key_out tag w v lat d z
              R_p g Htag Hv Hz Hlat HR Hg) as (l & es & Hrun).
  cbv zeta in Hrun. eexists _, _. split; [exact Hrun |].
  intros i Hi. cbn [data]. rewrite Hi. cbn [cumulative_trapezoid].
  destruct (eq_str (attrs_get (heap w ds) "p_unit") "bar"); unfold Rdiv; ring.
Qed.

Lemma meridional_overturning_first_level_witness :
  ∃ psi w',
    m_add_meridional_overturning 2%nat "V" None VNone w_one = (Ok psi, w')
    ∧ ∀ i, i "Z" = O → data psi i = 0.
Proof.
  apply (meridional_overturning_first_level 2%nat "V" None VNone w_one wind
           (axis "lat" 2) "Z" z_levels 70000000 10).
  - left. reflexivity.
  - vm_compute. reflexivity.
  - vm_compute. reflexivity.
  - vm_compute. reflexivity.
  - split; [| split]; vm_compute; reflexivity.
  - split; [| split]; vm_compute; reflexivity.
  - lra.
Defined.

(** How the overturning reduction fails.  For a name without a dot that is
    neither a variable nor a dimension of the dataset, [ds[v_data]] raises
    [KeyError]; for a variable that has no coordinate ['Z'] the integration
    raises a [ValueError] of xarray; and when the dataset has neither a
    variable, a dimension nor an attribute ['R_p'], [ds.R_p] raises
    [AttributeError].  Whenever the reduction raises, no dataset is changed,
    also when an output name was given. *)
Theorem meridional_overturning_failures (ds : ref) (v_data : string)
    (var_key_out : option string) (tag : pyval) (w : world) :
  tag = VNone ∨ is_str tag = true →
  let out := m_add_meridional_overturning ds v_data var_key_out tag w in
  (undotted v_data = true →
   variables (heap w ds) !! v_data = None →
   ds_dim_size (heap w ds) v_data = None →
   fst out = Raise (KeyError v_data))
  ∧ (∀ v, variables (heap w ds) !! v_data = Some v →
          coordinate_of (heap w ds) v "Z" = None →
          ∃ what, fst out = Raise (XarrayValueError what))
  ∧ (∀ v x lat, variables (heap w ds) !! v_data = Some v →
                coordinate_of (heap w ds) v "Z" = Some (Some x) →
                variables (heap w ds) !! "lat" = Some lat →
                variables (heap w ds) !! "R_p" = None →
                ds_dim_size (heap w ds) "R_p" = None →
                attrs (heap w ds) !! "R_p" = None →
                fst out = Raise (AttributeError "R_p"))
  ∧ (∀ e, fst out = Raise e → untouched w (snd out)).
Proof.
  intros Htag. cbv zeta.
  destruct (write_tag_ok tag Htag) as [es1 Hwt].
  destruct (write_output_run var_key_out w) as [es2 Hout].
  split; [| split; [| split]].
  - intros _ Hv Hd. unfold m_add_meridional_overturning.
    rewrite bind_run. cbn [write_status]. rewrite bind_run, Hwt.
    rewrite bind_run, Hout. rewrite bind_run. unfold deref at 1. cbv beta iota.
    rewrite !add_written_heap. unfold getitem. by rewrite Hv, Hd.
  - intros v Hv Hz. exists "Z". unfold m_add_meridional_overturning.
    rewrite bind_run. cbn [write_status]. rewrite bind_run, Hwt.
    rewrite bind_run, Hout. rewrite bind_run. unfold deref at 1. cbv beta iota.
    rewrite !add_written_heap. unfold getitem. rewrite Hv.
    rewrite bind_run. cbn [mret M_ret]. unfold cumulative_integrate. by rewrite Hz.
  - intros v [d z] lat Hv Hz Hlat HRv HRd HRa. unfold m_add_meridional_overturning.
    rewrite bind_run. cbn [write_status]. rewrite bind_run, Hwt.
    rewrite bind_run, Hout. rewrite bind_run. unfold deref at 1. cbv beta iota.
    rewrite !add_written_heap. unfold getitem. rewrite Hv.
    rewrite bind_run. cbn [mret M_ret]. unfold cumulative_integrate. rewrite Hz.
    rewrite bind_run. cbn [mret M_ret].
    rewrite bind_run, (getattr_variable _ _ lat _ Hlat).
    rewrite !bind_run. unfold getattr at 1. by rewrite HRv, HRd, HRa.
  - intros e He.
    pose proof (m_add_meridional_overturning_frame ds v_data var_key_out tag w) as F.
    cbv zeta in F. rewrite He in F. by destruct var_key_out.
Qed.

Lemma meridional_overturning_failures_witness :
  fst (m_add_meridional_overturning 2%nat "psi" (Some "out") VNone w_one)
  = Raise (KeyError "psi")
  ∧ untouched w_one (snd (m_add_meridional_overturning 2%nat "psi" (Some "out") VNone w_one)).
Proof.
  destruct (meridional_overturning_failures 2%nat "psi" (Some "out") VNone w_one)
    as (Hkey & _ & _ & Hsame); [by left |].
  cbv zeta in Hkey, Hsame.
  assert (variables (heap w_one 2%nat) !! "psi" = None) as Hv by (vm_compute; reflexivity).
  assert (ds_dim_size (heap w_one 2%nat) "psi" = None) as Hd by (vm_compute; reflexivity).
  split; [exact (Hkey eq_refl Hv Hd) | exact (Hsame _ (Hkey eq_refl Hv Hd))].
Defined.

(** ** The horizontal average: failures *)

(** How the horizontal average fails on the selected dataset.  For a name
    without a dot that is neither a variable nor a dimension of the dataset,
    the lookup of the weights raises [KeyError], and so does the lookup of
    the field when only the field is absent; when neither the weights nor
    the field have the longitude dimension, the sum raises a [ValueError] of
    xarray.  Whenever the reduction raises, no dataset is changed, also when
    an output name was given. *)
Theorem horizontal_average_failures (c : VarNames) (var_key : string)
    (var_key_out : option string) (area_key : string) (tag : pyval) (w : world)
    (r : ref) :
  fst (get_one_model tag true w) = Ok (Some r) →
  let out := m_add_horizontal_average c var_key var_key_out area_key tag w in
  (undotted area_key = true →
   variables (heap w r) !! area_key = None →
   ds_dim_size (heap w r) area_key = None →
   fst out = Raise (KeyError area_key))
  ∧ (∀ area, undotted var_key = true →
             variables (heap w r) !! area_key = Some area →
             variables (heap w r) !! var_key = None →
             ds_dim_size (heap w r) var_key = None →
             fst out = Raise (KeyError var_key))
  ∧ (∀ area field, variables (heap w r) !! area_key = Some area →
                   variables (heap w r) !! var_key = Some field →
                   dim_size (c_lon c) area = None →
                   dim_size (c_lon c) field = None →
                   ∃ what, fst out = Raise (XarrayValueError what))
  ∧ (∀ e, fst out = Raise e → untouched w (snd out)).
Proof.
  intros Hsel. cbv zeta.
  destruct (write_tag_selectable tag (Some r) w Hsel) as [es1 Htag].
  destruct (write_output_run var_key_out w) as [es2 Hout].
  split; [| split; [| split]].
  - intros _ Ha Hd. unfold m_add_horizontal_average.
    rewrite bind_run. cbn [write_status]. rewrite bind_run, Htag.
    rewrite bind_run. cbn [write_status]. rewrite bind_run, Hout.
    rewrite bind_run. cbn [write_status]. rewrite !add_written_app.
    rewrite !bind_run, get_one_model_written, Hsel. cbn [selected mret M_ret].
    rewrite bind_run. unfold deref at 1. cbv beta iota. rewrite add_written_heap.
    unfold getitem. by rewrite Ha, Hd.
  - intros area _ Ha Hf Hd. unfold m_add_horizontal_average.
    rewrite bind_run. cbn [write_status]. rewrite bind_run, Htag.
    rewrite bind_run. cbn [write_status]. rewrite bind_run, Hout.
    rewrite bind_run. cbn [write_status]. rewrite !add_written_app.
    rewrite !bind_run, get_one_model_written, Hsel. cbn [selected mret M_ret].
    rewrite bind_run. unfold deref at 1. cbv beta iota. rewrite add_written_heap.
    unfold getitem. rewrite Ha, Hf, Hd. rewrite bind_run. by cbn [mret M_ret].
  - intros area field Ha Hf Hla Hlf. exists (c_lon c). unfold m_add_horizontal_average.
    rewrite bind_run. cbn [write_status]. rewrite bind_run, Htag.
    rewrite bind_run. cbn [write_status]. rewrite bind_run, Hout.
    rewrite bind_run. cbn [write_status]. rewrite !add_written_app.
    rewrite !bind_run, get_one_model_written, Hsel. cbn [selected mret M_ret].
    rewrite bind_run. unfold deref at 1. cbv beta iota. rewrite add_written_heap.
    unfold getitem. rewrite Ha, Hf.
    rewrite bind_run. cbn [mret M_ret]. rewrite bind_run. cbn [mret M_ret].
    unfold arr_sum. cbn [for_each]. rewrite !bind_run. unfold sum_dim at 1.
    assert (dim_size (c_lon c) (arr_mul area field) = None) as ->.
    { unfold arr_mul, broadcast. rewrite dim_size_app, dim_size_filter_new.
      change (dim_size (c_lon c) (mkDataArray (dims area) ?f))
        with (dim_size (c_lon c) area).
      change (dim_size (c_lon c) (mkDataArray (dims field) ?f))
        with (dim_size (c_lon c) field).
      rewrite Hla, Hlf. by destruct (has_dim _ _). }
    reflexivity.
  - intros e He.
    pose proof (m_add_horizontal_average_frame c var_key var_key_out area_key tag w) as F.
    cbv zeta in F. rewrite He in F. by destruct var_key_out.
Qed.

Lemma horizontal_average_failures_witness :
  fst (m_add_horizontal_average VARNAMES "T" (Some "out") "area" VNone w_one)
  = Raise (KeyError "area")
  ∧ untouched w_one
      (snd (m_add_horizontal_average VARNAMES "T" (Some "out") "area" VNone w_one)).
Proof.
  destruct (horizontal_average_failures VARNAMES "T" (Some "out") "area" VNone w_one
              2%nat) as (Hkey & _ & _ & Hsame); [vm_compute; reflexivity |].
  cbv zeta in Hkey, Hsame.
  assert (variables (heap w_one 2%nat) !! "area" = None) as Hv by (vm_compute; reflexivity).
  assert (ds_dim_size (heap w_one 2%nat) "area" = None) as Hd by (vm_compute; reflexivity).
  split; [exact (Hkey eq_refl Hv Hd) | exact (Hsame _ (Hkey eq_refl Hv Hd))].
Defined.

(** ** The constructor *)

(** [GCMT(p_unit, time_unit)] checks the pressure unit first and the time
    unit second, and raises [ValueError] for a unit that is not allowed
    before anything is written; with two allowed units, and a writer that
    returns, it yields a session with these units and no dataset. *)
Theorem __init___outcome (ALLOWED_PUNITS ALLOWED_TIMEUNITS : list string)
    (str_of_units : list string → string) (writer_setup : pyval → M unit)
    (write_hline : M unit) (write_message : string → string → Z → M unit)
    (line_length : Z) (p_unit time_unit : string) (write : pyval) (w : world) :
  let new :=
    __init__ ALLOWED_PUNITS ALLOWED_TIMEUNITS str_of_units writer_setup write_hline
      write_message line_length p_unit time_unit write w in
  (p_unit ∉ ALLOWED_PUNITS →
   new = (Raise (ValueError ("Please use a pressure unit from "
                             ++ str_of_units ALLOWED_PUNITS)), w))
  ∧ (p_unit ∈ ALLOWED_PUNITS → time_unit ∉ ALLOWED_TIMEUNITS →
     new = (Raise (ValueError ("Please use a time unit from "
                               ++ str_of_units ALLOWED_TIMEUNITS)), w))
  ∧ (p_unit ∈ ALLOWED_PUNITS → time_unit ∈ ALLOWED_TIMEUNITS →
     returns_writing (writer_setup write) → returns_writing write_hline →
     (∀ msg color spacing, returns_writing (write_message msg color spacing)) →
     ∃ es, new = (Ok (mkGCMT ∅ p_unit time_unit), add_written es w)).
Proof.
  cbv zeta. unfold __init__. split; [| split].
  - intros Hp. by rewrite bool_decide_eq_false_2.
  - intros Hp Ht. by rewrite bool_decide_eq_true_2, bool_decide_eq_false_2.
  - intros Hp Ht Hsetup Hline Hmsg.
    rewrite !bool_decide_eq_true_2 by done. cbn [negb].
    destruct (Hsetup w) as [es1 H1]. rewrite bind_run, H1.
    destruct (Hline (add_written es1 w)) as [es2 H2]. rewrite bind_run, H2.
    match goal with |- context [write_message ?m ?c ?s] =>
      destruct (Hmsg m c s (add_written es2 (add_written es1 w))) as [es3 H3]
    end.
    rewrite bind_run, H3.
    match goal with |- context [(write_hline ≫= _) ?w'] =>
      destruct (Hline w') as [es4 H4]
    end.
    rewrite bind_run, H4.
    do 3 (rewrite bind_run; cbn [write_status mret M_ret]).
    rewrite !add_written_app. by eexists.
Qed.

Lemma __init___outcome_witness :
  let init := __init__ ["bar"; "Pa"] ["day"; "iter"] (String.concat ", ")
                (fun _ => mret tt) (write_status "HLINE" []) recording_message 80%Z in
  fst (init "atm" "day" VNone w_fresh) = Raise (ValueError "Please use a pressure unit from bar, Pa")
  ∧ fst (init "bar" "year" VNone w_fresh) = Raise (ValueError "Please use a time unit from day, iter")
  ∧ fst (init "bar" "day" VNone w_fresh) = Ok (mkGCMT ∅ "bar" "day").
Proof.
  cbv zeta.
  destruct (__init___outcome ["bar"; "Pa"] ["day"; "iter"] (String.concat ", ")
              (fun _ => mret tt) (write_status "HLINE" []) recording_message 80%Z
              "atm" "day" VNone w_fresh) as (H1 & _ & _).
  destruct (__init___outcome ["bar"; "Pa"] ["day"; "iter"] (String.concat ", ")
              (fun _ => mret tt) (write_status "HLINE" []) recording_message 80%Z
              "bar" "year" VNone w_fresh) as (_ & H2 & _).
  destruct (__init___outcome ["bar"; "Pa"] ["day"; "iter"] (String.concat ", ")
              (fun _ => mret tt) (write_status "HLINE" []) recording_message 80%Z
              "bar" "day" VNone w_fresh) as (_ & _ & H3).
  cbv zeta in H1, H2, H3. split; [| split].
  - rewrite H1 by (apply (bool_decide_unpack _); vm_compute; exact I). reflexivity.
  - rewrite H2 by (apply (bool_decide_unpack _); vm_compute; exact I). reflexivity.
  - destruct H3 as [es ->];
      [apply (bool_decide_unpack _); vm_compute; exact I
      |apply (bool_decide_unpack _); vm_compute; exact I | | | |].
    + intros w. exists []. by rewrite add_written_nil.
    + intros w. by eexists.
    + intros msg color spacing w. by eexists.
    + reflexivity.
Defined.
